(** * nettest: the test-execution and result-aggregation engine

    A shallow embedding of [runTests], [testHTTPConnection] and
    [testTCPConnection] of nettest.go, with the data types of the
    configuration file (TestConfig, Configuration, ResponseDetails).

    The program talks to the network, reads a clock and prints progress
    lines.  These effects are modelled by a state monad over a [World]
    (a monotonic clock, the log of every interaction with its outcome, and
    the backing array of the configuration slice) and by an environment
    [Env] that answers each call into Go's standard library whose result
    the program cannot compute by itself (dial, resolve, HTTP round trip,
    body read, URL validation). *)

From Stdlib Require Import ZArith NArith Bool List String Ascii Lia.
From Stdlib Require Import DecimalString.
Import ListNotations.

Local Open Scope string_scope.
Local Open Scope Z_scope.

(* ===================================================================== *)
(** ** The parts of Go's standard library the program calls              *)
(* ===================================================================== *)

Module Go.

(** Characters that cannot be written inside a literal. *)
Definition quote : string := String (ascii_of_nat 34) EmptyString.
Definition nl : string := String (ascii_of_nat 10) EmptyString.

(** [strings.HasPrefix(s, prefix)]. *)
Definition HasPrefix (s prefix : string) : bool := String.prefix prefix s.

(** [strconv.Itoa] and the verb [%d] of package fmt on an [int]. *)
Definition Itoa (i : Z) : string := NilZero.string_of_int (Z.to_int i).

(** *** strings.ToLower and strings.ToUpper

    Both scan the bytes first.  A string of ASCII bytes only is mapped
    byte by byte; any other string goes through the Unicode tables
    ([strings.Map] with [unicode.ToLower]), which are passed in as
    [unicodeMap]. *)

Definition isUpper (c : ascii) : bool :=
  ((65 <=? nat_of_ascii c) && (nat_of_ascii c <=? 90))%nat.

Definition isLower (c : ascii) : bool :=
  ((97 <=? nat_of_ascii c) && (nat_of_ascii c <=? 122))%nat.

Definition lowerByte (c : ascii) : ascii :=
  if isUpper c then ascii_of_nat (nat_of_ascii c + 32) else c.

Definition upperByte (c : ascii) : ascii :=
  if isLower c then ascii_of_nat (nat_of_ascii c - 32) else c.

Fixpoint isASCII (s : string) : bool :=
  match s with
  | EmptyString => true
  | String c r => (nat_of_ascii c <? 128)%nat && isASCII r
  end.

Fixpoint hasByte (p : ascii -> bool) (s : string) : bool :=
  match s with
  | EmptyString => false
  | String c r => p c || hasByte p r
  end.

Fixpoint mapBytes (f : ascii -> ascii) (s : string) : string :=
  match s with
  | EmptyString => EmptyString
  | String c r => String (f c) (mapBytes f r)
  end.

Definition ToLower (unicodeMap : string -> string) (s : string) : string :=
  if isASCII s then
    if hasByte isUpper s then mapBytes lowerByte s else s
  else unicodeMap s.

Definition ToUpper (unicodeMap : string -> string) (s : string) : string :=
  if isASCII s then
    if hasByte isLower s then mapBytes upperByte s else s
  else unicodeMap s.

(** [net.JoinHostPort]: a host that contains a colon is bracketed. *)
Definition JoinHostPort (host port : string) : string :=
  if hasByte (Ascii.eqb ":") host
  then "[" ++ host ++ "]:" ++ port
  else host ++ ":" ++ port.

(** *** time.Duration: a signed 64-bit count of nanoseconds *)

Definition wrap64 (z : Z) : Z := (z + 2 ^ 63) mod 2 ^ 64 - 2 ^ 63.

Definition minDuration : Z := - 2 ^ 63.
Definition maxDuration : Z := 2 ^ 63 - 1.

Definition Microsecond : Z := 1000.
Definition Millisecond : Z := 1000000.
Definition Second : Z := 1000000000.

(** [time.Duration(n) * time.Second], with the wrap-around of int64. *)
Definition Seconds (n : Z) : Z := wrap64 (wrap64 n * Second).

(** [t.Sub(u)]: the difference of two clock readings, saturated. *)
Definition Sub (t u : Z) : Z := Z.max minDuration (Z.min maxDuration (t - u)).

(** [fmtInt] writes the decimal digits of [v] in front of [w]. *)
Definition fmtInt (w : string) (v : N) : string :=
  NilZero.string_of_uint (N.to_uint v) ++ w.

Definition digit (v : N) : ascii := ascii_of_N (48 + v).

(** [fmtFrac] writes the fraction of [v / 10^prec] in front of [w],
    without trailing zeros and without the point when the fraction is
    zero, and returns [v / 10^prec]. *)
Fixpoint fmtFracLoop (prec : nat) (w : string) (v : N) (print : bool)
  : string * N * bool :=
  match prec with
  | O => (w, v, print)
  | S prec' =>
      let d := (v mod 10)%N in
      let print := print || negb (d =? 0)%N in
      let w := if print then String (digit d) w else w in
      fmtFracLoop prec' w (v / 10)%N print
  end.

Definition fmtFrac (w : string) (v : N) (prec : nat) : string * N :=
  let '(w, v, print) := fmtFracLoop prec w v false in
  (if print then String "." w else w, v).

(** The micro sign, two bytes in UTF-8. *)
Definition micro : string :=
  String (ascii_of_nat 194) (String (ascii_of_nat 181) EmptyString).

(** [Duration.String]: the largest unit first, as in 1h2m3.5s; a
    duration below one second is printed in ns, us or ms. *)
Definition Duration_String (d : Z) : string :=
  let u := Z.to_N (Z.abs d) in
  let neg := d <? 0 in
  let w := "s" in
  let w :=
    if (u <? Z.to_N Second)%N then
      if (u =? 0)%N then String "0" w
      else
        let '(prec, w) :=
          if (u <? Z.to_N Microsecond)%N then (0%nat, String "n" w)
          else if (u <? Z.to_N Millisecond)%N then (3%nat, micro ++ w)
          else (6%nat, String "m" w) in
        let '(w, u) := fmtFrac w u prec in
        fmtInt w u
    else
      let '(w, u) := fmtFrac w u 9 in
      let w := fmtInt w (u mod 60)%N in
      let u := (u / 60)%N in
      if (0 <? u)%N then
        let w := fmtInt (String "m" w) (u mod 60)%N in
        let u := (u / 60)%N in
        if (0 <? u)%N then fmtInt (String "h" w) u else w
      else w in
  if neg then String "-" w else w.

End Go.

(* ===================================================================== *)
(** ** Data model                                                         *)
(* ===================================================================== *)

(** Configuration is the unit defining a specific test. *)
Record Configuration := mkConfiguration {
  NetworkName : string;
  Host : string;
  Path : string;
  Port : Z;
  Proto : string;
  Timeout : Z;
  CaptureBody : bool
}.

(** ResponseDetails is the structure used to report on results. *)
Record ResponseDetails := mkResponseDetails {
  Request : Configuration;
  Success : bool;
  Status : Z;
  FailureMessage : string;
  Body : string;
  Time : string;
  IPResolvedStatus : string
}.

(** A slice is a window on a backing array that its holders share. *)
Record Slice := mkSlice { base : nat; len : nat }.

(** TestConfig is the highest level struct of the configuration. *)
Record TestConfig := mkTestConfig {
  TestName : string;
  Email : string;
  Config : Slice
}.

(** The zero values of the two structs. *)
Definition zeroConfiguration : Configuration :=
  mkConfiguration EmptyString EmptyString EmptyString 0 EmptyString 0 false.

Definition zeroResponseDetails : ResponseDetails :=
  mkResponseDetails zeroConfiguration false 0 EmptyString EmptyString
                    EmptyString EmptyString.

(** Assignments to one field. *)
Definition set_Timeout (v : Z) (c : Configuration) : Configuration :=
  mkConfiguration (NetworkName c) (Host c) (Path c) (Port c) (Proto c) v
                  (CaptureBody c).

Definition set_Path (v : string) (c : Configuration) : Configuration :=
  mkConfiguration (NetworkName c) (Host c) v (Port c) (Proto c) (Timeout c)
                  (CaptureBody c).

Definition set_Request (v : Configuration) (r : ResponseDetails) :=
  mkResponseDetails v (Success r) (Status r) (FailureMessage r) (Body r)
                    (Time r) (IPResolvedStatus r).

Definition set_Success (v : bool) (r : ResponseDetails) :=
  mkResponseDetails (Request r) v (Status r) (FailureMessage r) (Body r)
                    (Time r) (IPResolvedStatus r).

Definition set_Status (v : Z) (r : ResponseDetails) :=
  mkResponseDetails (Request r) (Success r) v (FailureMessage r) (Body r)
                    (Time r) (IPResolvedStatus r).

Definition set_FailureMessage (v : string) (r : ResponseDetails) :=
  mkResponseDetails (Request r) (Success r) (Status r) v (Body r)
                    (Time r) (IPResolvedStatus r).

Definition set_Body (v : string) (r : ResponseDetails) :=
  mkResponseDetails (Request r) (Success r) (Status r) (FailureMessage r) v
                    (Time r) (IPResolvedStatus r).

Definition set_Time (v : string) (r : ResponseDetails) :=
  mkResponseDetails (Request r) (Success r) (Status r) (FailureMessage r)
                    (Body r) v (IPResolvedStatus r).

Definition set_IPResolvedStatus (v : string) (r : ResponseDetails) :=
  mkResponseDetails (Request r) (Success r) (Status r) (FailureMessage r)
                    (Body r) (Time r) v.

(* ===================================================================== *)
(** ** The world outside the program                                      *)
(* ===================================================================== *)

(** An argument of [fmt.Printf]. *)
Inductive Arg :=
| AStr (s : string)
| AInt (i : Z).

(** The part of an [*http.Response] the program looks at. *)
Record Response := mkResponse { StatusCode : Z }.

(** A [*net.IPAddr]; [None] stands for the nil pointer. *)
Record IPAddr := mkIPAddr { addrText : string }.

Definition IPAddr_String (a : option IPAddr) : string :=
  match a with
  | Some a => addrText a
  | None => "<nil>"
  end.

(** Every interaction with the outside, with what it returned.  An error
    is represented by its text, the only part the program uses. *)
Inductive Event :=
| EvPrintf (format : string) (args : list Arg)
| EvNewRequest (method url : string) (ret : option string)
| EvResolveIPAddr (network host : string)
                  (ret : option IPAddr * option string)
| EvClientDo (method url : string) (clientTimeout : Z)
             (ret : Response + string)
| EvReadAll (ret : string * option string)
| EvBodyClose
| EvDialTimeout (network address : string) (dialTimeout : Z)
                (ret : option string).

Definition isNetworkIO (e : Event) : bool :=
  match e with
  | EvPrintf _ _ => false
  | EvNewRequest _ _ _ => false
  | _ => true
  end.

Record World := mkWorld {
  clock : Z;                      (* monotonic clock reading, in ns *)
  trace : list Event;             (* interactions so far, oldest first *)
  heap : list Configuration       (* backing array of the config slice *)
}.

(** The answers of the outside world.  An answer of the network may depend
    on everything that happened before.  [latency] is the time an
    interaction takes: it is a natural number, as the monotonic clock that
    [time.Now] and [time.Since] read never runs backwards.

    The colour codes CLR_RED, CLR_GREEN, CLR_WHITE and CLR_N are constants
    of the package that nettest.go does not declare; they are taken as
    given, like the Unicode case tables behind [strings.ToLower] and
    [strings.ToUpper]. *)
Record Env := mkEnv {
  CLR_RED : string;
  CLR_GREEN : string;
  CLR_WHITE : string;
  CLR_N : string;
  unicodeToLower : string -> string;
  unicodeToUpper : string -> string;
  http_NewRequest : string -> string -> option string;
  net_ResolveIPAddr : World -> string -> string ->
                      option IPAddr * option string;
  client_Do : World -> string -> string -> Z -> Response + string;
  ioutil_ReadAll : World -> string * option string;
  net_DialTimeout : World -> string -> string -> Z -> option string;
  latency : World -> Event -> nat
}.

(** *** The state monad of the program *)

Definition M (A : Type) : Type := World -> A * World.

Definition ret {A} (a : A) : M A := fun w => (a, w).

Definition bind {A B} (m : M A) (k : A -> M B) : M B :=
  fun w => let (a, w') := m w in k a w'.

Declare Scope go_scope.
Delimit Scope go_scope with go.
Notation "x <- m ;; k" := (bind m (fun x => k))
  (at level 61, m at next level, right associativity) : go_scope.
Notation "m ;; k" := (bind m (fun _ => k))
  (at level 61, right associativity) : go_scope.
Local Open Scope go_scope.

(** The events logged between two worlds. *)
Definition since (w w' : World) : list Event :=
  skipn (List.length (trace w)) (trace w').

(** The elements a slice shows of the backing array. *)
Definition elements (s : Slice) (w : World) : list Configuration :=
  firstn (len s) (skipn (base s) (heap w)).

Section Effects.

Variable env : Env.

(** Log an interaction and let the clock advance by its latency. *)
Definition emit (e : Event) : M unit :=
  fun w => (tt, mkWorld (clock w + Z.of_nat (latency env w e))
                        (trace w ++ [e])%list (heap w)).

Definition Printf (format : string) (args : list Arg) : M unit :=
  emit (EvPrintf format args).

Definition time_Now : M Z := fun w => (clock w, w).

Definition time_Since (t : Z) : M Z := fun w => (Go.Sub (clock w) t, w).

(** [http.NewRequest] only parses the URL: its answer is a function of
    its arguments. *)
Definition NewRequest (method url : string) : M (option string) :=
  fun w => let r := http_NewRequest env method url in
           (r, snd (emit (EvNewRequest method url r) w)).

Definition ResolveIPAddr (network host : string)
  : M (option IPAddr * option string) :=
  fun w => let r := net_ResolveIPAddr env w network host in
           (r, snd (emit (EvResolveIPAddr network host r) w)).

Definition Do (method url : string) (clientTimeout : Z)
  : M (Response + string) :=
  fun w => let r := client_Do env w method url clientTimeout in
           (r, snd (emit (EvClientDo method url clientTimeout r) w)).

Definition ReadAll : M (string * option string) :=
  fun w => let r := ioutil_ReadAll env w in
           (r, snd (emit (EvReadAll r) w)).

Definition DialTimeout (network address : string) (dialTimeout : Z)
  : M (option string) :=
  fun w => let r := net_DialTimeout env w network address dialTimeout in
           (r, snd (emit (EvDialTimeout network address dialTimeout r) w)).

(** [config.Config[i]]: a copy of the element.  A slice of Go lies within
    its array; the zero value only makes the function total. *)
Definition index (s : Slice) (i : nat) : M Configuration :=
  fun w => (nth (base s + i) (heap w) zeroConfiguration, w).

End Effects.

(* ===================================================================== *)
(** ** The program                                                        *)
(* ===================================================================== *)

(** The horizontal rule printed under the suite name: 74 times U+2500. *)
Definition ruleGlyph : string :=
  String (ascii_of_nat 226)
    (String (ascii_of_nat 148) (String (ascii_of_nat 128) EmptyString)).

Definition rule : string := String.concat EmptyString (repeat ruleGlyph 74).

(** The text put in the failure message of a target whose protocol is not
    supported, [fmt.Sprintf] written out. *)
Definition failureCauseText (testNr : Z) (lowerCaseProto host : string)
  : string :=
  "[" ++ Go.Itoa testNr ++ "] Configurstion error: protocol "
      ++ Go.quote ++ lowerCaseProto ++ Go.quote
      ++ " specified for host " ++ Go.quote ++ host ++ Go.quote
      ++ " is invalid. Must be TCP, HTTP, or HTTPS." ++ Go.nl.

(** The URL of an HTTP test, [fmt.Sprintf] written out. *)
Definition urlText (test : Configuration) : string :=
  Proto test ++ "://" ++ Host test ++ ":" ++ Go.Itoa (Port test)
             ++ Path test.

Section Nettest.

Variable env : Env.

(** The package variable [timeout], set once from the command line. *)
Variable timeout : Z.

Let ToLower := Go.ToLower (unicodeToLower env).
Let ToUpper := Go.ToUpper (unicodeToUpper env).
Let FAILED := "[%sFAILED%s]" ++ Go.nl.
Let OK := "[%sOK%s]" ++ Go.nl.

(** testHTTPConnection tests an http connection with Go's http client.
    The deferred [resp.Body.Close()] runs when the function returns. *)
Definition testHTTPConnection (testNr : Z) (test : Configuration)
  : M ResponseDetails :=
  Printf env "[%d] Target: %s (%s)... "
         [AInt (testNr + 1); AStr (Host test);
          AStr (ToUpper (Proto test))] ;;
  let test :=
    if Timeout test =? 0 then set_Timeout timeout test else test in
  startTime <- time_Now ;;
  let respDetails := set_Request test zeroResponseDetails in
  let test :=
    if negb (Go.HasPrefix (Path test) "/")
    then set_Path ("/" ++ Path test) test else test in
  let url := urlText test in
  errRequest <- NewRequest env "GET" url ;;
  match errRequest with
  | Some errRequest =>
      Printf env
        (FAILED ++ "Unable to generate HTTP request for test %s. %s" ++ Go.nl)
        [AStr (CLR_RED env); AStr (CLR_N env); AStr (NetworkName test);
         AStr errRequest] ;;
      ret (set_FailureMessage errRequest respDetails)
  | None =>
      resolved <- ResolveIPAddr env "ip4" (Host test) ;;
      let '(ipRes, err) := resolved in
      let respDetails :=
        set_IPResolvedStatus (IPAddr_String ipRes) respDetails in
      let respDetails :=
        match err with
        | Some _ =>
            set_IPResolvedStatus "Failed to resolve IP from DNS." respDetails
        | None => respDetails
        end in
      done <- Do env "GET" url (Go.Seconds (Timeout test)) ;;
      match done with
      | inr errClientReq =>
          Printf env (FAILED ++ "Unable to access target: %s" ++ Go.nl)
                 [AStr (CLR_RED env); AStr (CLR_N env); AStr errClientReq] ;;
          let respDetails := set_FailureMessage errClientReq respDetails in
          elapsed <- time_Since startTime ;;
          ret (set_Time (Go.Duration_String elapsed) respDetails)
      | inl resp =>
          let respDetails := set_Status (StatusCode resp) respDetails in
          let respDetails := set_Success true respDetails in
          respDetails <-
            (if CaptureBody test then
               read <- ReadAll env ;;
               let '(respBody, err) := read in
               let respDetails := set_Body respBody respDetails in
               match err with
               | Some e =>
                   Printf env
                     (FAILED ++ "Unable to capture response body: %s" ++ Go.nl)
                     [AStr (CLR_RED env); AStr (CLR_N env); AStr e]
               | None =>
                   Printf env OK [AStr (CLR_GREEN env); AStr (CLR_N env)]
               end ;;
               ret respDetails
             else
               Printf env OK [AStr (CLR_GREEN env); AStr (CLR_N env)] ;;
               ret respDetails) ;;
          elapsed <- time_Since startTime ;;
          let respDetails :=
            set_Time (Go.Duration_String elapsed) respDetails in
          emit env EvBodyClose ;;
          ret respDetails
      end
  end.

(** testTCPConnection tests a tcp connection with [net.DialTimeout]. *)
Definition testTCPConnection (testNr : Z) (test : Configuration)
  : M ResponseDetails :=
  Printf env "[%d] Target: %s (%s)... "
         [AInt (testNr + 1); AStr (Host test);
          AStr (ToUpper (Proto test))] ;;
  let test :=
    if Timeout test =? 0 then set_Timeout timeout test else test in
  startTime <- time_Now ;;
  let respDetails := set_Request test zeroResponseDetails in
  err <- DialTimeout env "tcp"
           (Go.JoinHostPort (Host test) (Go.Itoa (Port test)))
           (Go.Seconds (Timeout test)) ;;
  respDetails <-
    match err with
    | Some e =>
        Printf env (FAILED ++ "Unable to access host via TCP: %s" ++ Go.nl)
               [AStr (CLR_RED env); AStr (CLR_N env); AStr e] ;;
        ret (set_FailureMessage e respDetails)
    | None =>
        let respDetails := set_Success true respDetails in
        Printf env OK [AStr (CLR_GREEN env); AStr (CLR_N env)] ;;
        ret respDetails
    end ;;
  elapsed <- time_Since startTime ;;
  ret (set_Time (Go.Duration_String elapsed) respDetails).

(** The body of the loop of runTests: route one test by its protocol. *)
Definition runTest (testNr : Z) (netTest : Configuration)
  : M ResponseDetails :=
  let resp := zeroResponseDetails in
  let lowerCaseProto := ToLower (Proto netTest) in
  if (lowerCaseProto =? "http")%string || (lowerCaseProto =? "https")%string
  then testHTTPConnection testNr netTest
  else if (lowerCaseProto =? "tcp")%string
  then testTCPConnection testNr netTest
  else
    let failureCause :=
      failureCauseText testNr lowerCaseProto (Host netTest) in
    Printf env failureCause [] ;;
    let resp := set_Request netTest resp in
    let resp := set_FailureMessage failureCause resp in
    ret resp.

(** [for testNr, netTest := range config.Config]: the slice is evaluated
    once, [n] iterations remain, and each one copies its element. *)
Fixpoint rangeLoop (s : Slice) (n : nat) (testNr : nat)
         (results : list ResponseDetails) : M (list ResponseDetails) :=
  match n with
  | O => ret results
  | S n' =>
      netTest <- index s testNr ;;
      resp <- runTest (Z.of_nat testNr) netTest ;;
      rangeLoop s n' (S testNr) (results ++ [resp])%list
  end.

(** runTests is the entry point for test requests.  It routes HTTP and
    TCP requests to their function and returns the results once all
    tests have completed. *)
Definition runTests (config : TestConfig) : M (list ResponseDetails) :=
  let results := [] in
  Printf env (Go.nl ++ "%sRunning test suite: %s%s" ++ Go.nl)
         [AStr (CLR_WHITE env); AStr (TestName config); AStr (CLR_N env)] ;;
  Printf env (rule ++ Go.nl) [] ;;
  rangeLoop (Config config) (len (Config config)) 0 results.

End Nettest.

(* ===================================================================== *)
(** ** Notions used to state the properties                               *)
(* ===================================================================== *)

(** The three ways [runTests] can treat a test. *)
Inductive Strategy := HTTPProbe | TCPProbe | Unsupported.

(** The routing decision of [runTest], read off its conditions. *)
Definition route (env : Env) (proto : string) : Strategy :=
  let lowerCaseProto := Go.ToLower (unicodeToLower env) proto in
  if (lowerCaseProto =? "http")%string || (lowerCaseProto =? "https")%string
  then HTTPProbe
  else if (lowerCaseProto =? "tcp")%string then TCPProbe
  else Unsupported.

(** The URL an HTTP test asks for, as a function of the configured test. *)
Definition requestURL (test : Configuration) : string :=
  Proto test ++ "://" ++ Host test ++ ":" ++ Go.Itoa (Port test)
    ++ (if Go.HasPrefix (Path test) "/" then Path test
        else "/" ++ Path test).

(** The timeouts handed to the network calls of a log. *)
Fixpoint timeoutsUsed (l : list Event) : list Z :=
  match l with
  | [] => []
  | EvClientDo _ _ d _ :: l' => d :: timeoutsUsed l'
  | EvDialTimeout _ _ d _ :: l' => d :: timeoutsUsed l'
  | _ :: l' => timeoutsUsed l'
  end.

(** The record [r] echoes the test [t]: its request is [t], possibly with
    the default filled in for a timeout left at zero. *)
Definition echoes (timeout : Z) (t : Configuration) (r : ResponseDetails)
  : Prop :=
  Request r = t \/ (Timeout t = 0 /\ Request r = set_Timeout timeout t).

(** A rendered duration that starts with a minus sign. *)
Definition isNegativeText (s : string) : bool :=
  match s with
  | String c _ => Ascii.eqb c "-"
  | EmptyString => false
  end.

(** The elapsed-time field holds the rendering of a duration that is not
    negative. *)
Definition timed (r : ResponseDetails) : Prop :=
  exists d : Z,
    0 <= d /\ Time r = Go.Duration_String d /\
    Time r <> EmptyString /\ isNegativeText (Time r) = false.

(** The slice lies within its backing array. *)
Definition inBounds (s : Slice) (w : World) : Prop :=
  (base s + len s <= List.length (heap w))%nat.

(** *** The specification's wording, for comparison with the code *)

(** The effective timeout as the specification words it: the target's own
    value if it is positive, the run-wide default otherwise. *)
Definition specTimeout (timeout : Z) (test : Configuration) : Z :=
  if 0 <? Timeout test then Timeout test else timeout.

(** The failure message as the specification words it. *)
Definition specFailureMessage (value host : string) : string :=
  "protocol " ++ Go.quote ++ value ++ Go.quote ++ " for host "
    ++ Go.quote ++ host ++ Go.quote
    ++ " is invalid; must be tcp, http, or https".

(** The URL as the specification words it: a slash is prepended only to a
    path that is not empty and does not start with one. *)
Definition specURL (test : Configuration) : string :=
  Proto test ++ "://" ++ Host test ++ ":" ++ Go.Itoa (Port test)
    ++ (if (negb (Path test =? EmptyString)%string
            && negb (Go.HasPrefix (Path test) "/"))%bool
        then "/" ++ Path test else Path test).

(** *** Sample environments and worlds *)

Definition esc (code : string) : string := String (ascii_of_nat 27) code.

(** An environment whose answers do not depend on the history: every
    interaction takes 250 nanoseconds. *)
Definition staticEnv
           (newRequest : option string)
           (resolve : option IPAddr * option string)
           (do : Response + string)
           (readAll : string * option string)
           (dial : option string) : Env :=
  mkEnv (esc "[31m") (esc "[32m") (esc "[37m") (esc "[0m")
        (fun s => s) (fun s => s)
        (fun _ _ => newRequest)
        (fun _ _ _ => resolve)
        (fun _ _ _ _ => do)
        (fun _ => readAll)
        (fun _ _ _ _ => dial)
        (fun _ _ => 250%nat).

(** A host that resolves and answers 404 with a short page. *)
Definition notFoundEnv : Env :=
  staticEnv None (Some (mkIPAddr "93.184.216.34"), None)
            (inl (mkResponse 404)) ("not found", None) None.

(** A host whose body breaks off after some bytes were read. *)
Definition brokenBodyEnv : Env :=
  staticEnv None (Some (mkIPAddr "93.184.216.34"), None)
            (inl (mkResponse 200)) ("<html><bo", Some "unexpected EOF") None.

(** A host that does not resolve and cannot be reached. *)
Definition unreachableEnv : Env :=
  staticEnv None (None, Some "lookup nowhere.invalid: no such host")
            (inr "dial tcp: lookup nowhere.invalid: no such host")
            (EmptyString, None)
            (Some "dial tcp: lookup nowhere.invalid: no such host").

(** A URL that [http.NewRequest] refuses. *)
Definition badURLEnv : Env :=
  staticEnv (Some "invalid port after host")
            (None, None) (inr "unreachable") (EmptyString, None) None.

Definition google : Configuration :=
  mkConfiguration "google" "google.com" EmptyString 80 "http" 0 false.

Definition amazon : Configuration :=
  mkConfiguration "amazon" "amazon.com" "foo" 443 "HTTPS" 5 true.

Definition mailhost : Configuration :=
  mkConfiguration "mail" "mail.example.com" EmptyString 25 "Tcp" 0 false.

Definition fileserver : Configuration :=
  mkConfiguration "files" "ftp.example.com" "/pub" 21 "FTP" 0 false.

Definition impatient : Configuration :=
  mkConfiguration "mail" "mail.example.com" EmptyString 25 "tcp" (-3) false.

Definition sampleWorld : World :=
  mkWorld 0 [] [google; amazon; mailhost; fileserver].

Definition sampleConfig : TestConfig :=
  mkTestConfig "Network Test Valid 1" "john.doe@email.com" (mkSlice 0 4).

(** *** The outcome paths of a probe

    What one call of a probe leaves behind: the interactions it logged and
    the record it returned, path by path.  The progress lines are kept in
    the log, their wording is left open. *)

(** What is stored as the resolved address. *)
Definition resolvedText (ret : option IPAddr * option string) : string :=
  match snd ret with
  | Some _ => "Failed to resolve IP from DNS."
  | None => IPAddr_String (fst ret)
  end.

Section Paths.

Variable env : Env.
Variable timeout : Z.
Variable t : Configuration.

(** The copy of the test the probe works on, once the default is in. *)
Definition defaulted : Configuration :=
  if Timeout t =? 0 then set_Timeout timeout t else t.

Inductive HTTPPath : list Event -> ResponseDetails -> Prop :=
| RequestRefused : forall f a f' a' e,
    http_NewRequest env "GET" (requestURL t) = Some e ->
    HTTPPath
      [EvPrintf f a; EvNewRequest "GET" (requestURL t) (Some e);
       EvPrintf f' a']
      (mkResponseDetails defaulted false 0 e EmptyString EmptyString
                         EmptyString)
| TransportFailed : forall f a f' a' res e d,
    http_NewRequest env "GET" (requestURL t) = None ->
    0 <= d ->
    HTTPPath
      [EvPrintf f a; EvNewRequest "GET" (requestURL t) None;
       EvResolveIPAddr "ip4" (Host t) res;
       EvClientDo "GET" (requestURL t) (Go.Seconds (Timeout defaulted))
                  (inr e);
       EvPrintf f' a']
      (mkResponseDetails defaulted false 0 e EmptyString
                         (Go.Duration_String d) (resolvedText res))
| RoundTrip : forall f a f' a' res resp d,
    http_NewRequest env "GET" (requestURL t) = None ->
    CaptureBody t = false ->
    0 <= d ->
    HTTPPath
      [EvPrintf f a; EvNewRequest "GET" (requestURL t) None;
       EvResolveIPAddr "ip4" (Host t) res;
       EvClientDo "GET" (requestURL t) (Go.Seconds (Timeout defaulted))
                  (inl resp);
       EvPrintf f' a'; EvBodyClose]
      (mkResponseDetails defaulted true (StatusCode resp) EmptyString
                         EmptyString (Go.Duration_String d)
                         (resolvedText res))
| RoundTripWithBody : forall f a f' a' res resp read d,
    http_NewRequest env "GET" (requestURL t) = None ->
    CaptureBody t = true ->
    0 <= d ->
    HTTPPath
      [EvPrintf f a; EvNewRequest "GET" (requestURL t) None;
       EvResolveIPAddr "ip4" (Host t) res;
       EvClientDo "GET" (requestURL t) (Go.Seconds (Timeout defaulted))
                  (inl resp);
       EvReadAll read; EvPrintf f' a'; EvBodyClose]
      (mkResponseDetails defaulted true (StatusCode resp) EmptyString
                         (fst read) (Go.Duration_String d)
                         (resolvedText res)).

Inductive TCPPath : list Event -> ResponseDetails -> Prop :=
| DialFailed : forall f a f' a' e d,
    0 <= d ->
    TCPPath
      [EvPrintf f a;
       EvDialTimeout "tcp"
         (Go.JoinHostPort (Host t) (Go.Itoa (Port t)))
         (Go.Seconds (Timeout defaulted)) (Some e);
       EvPrintf f' a']
      (mkResponseDetails defaulted false 0 e EmptyString
                         (Go.Duration_String d) EmptyString)
| Dialed : forall f a f' a' d,
    0 <= d ->
    TCPPath
      [EvPrintf f a;
       EvDialTimeout "tcp"
         (Go.JoinHostPort (Host t) (Go.Itoa (Port t)))
         (Go.Seconds (Timeout defaulted)) None;
       EvPrintf f' a']
      (mkResponseDetails defaulted true 0 EmptyString EmptyString
                         (Go.Duration_String d) EmptyString).

(** The record made up for a protocol that is not supported. *)
Inductive RejectedPath (testNr : Z) : list Event -> ResponseDetails -> Prop :=
| Rejected :
    RejectedPath testNr
      [EvPrintf
         (failureCauseText testNr (Go.ToLower (unicodeToLower env) (Proto t))
                           (Host t)) []]
      (mkResponseDetails t false 0
         (failureCauseText testNr (Go.ToLower (unicodeToLower env) (Proto t))
                           (Host t))
         EmptyString EmptyString EmptyString).

(** The paths of the loop body, by routing decision. *)
Definition TestPath (testNr : Z) (l : list Event) (r : ResponseDetails)
  : Prop :=
  match route env (Proto t) with
  | HTTPProbe => HTTPPath l r
  | TCPProbe => TCPPath l r
  | Unsupported => RejectedPath testNr l r
  end.

End Paths.

(* ===================================================================== *)
(** ** The rest of the program: configuration, report and main          *)
(* ===================================================================== *)

Module GoFiles.

(** [strings.HasSuffix(s, suffix)]. *)
Definition HasSuffix (s suffix : string) : bool :=
  (String.length suffix <=? String.length s)%nat
  && (substring (String.length s - String.length suffix)
                (String.length suffix) s =? suffix)%string.

(** The verbs [%t] and [%v] of package fmt on a [bool]. *)
Definition FormatBool (b : bool) : string := if b then "true" else "false".

End GoFiles.

(** Version number of this application. *)
Definition version : string := "1.0".

(** Output report file name. *)
Definition logfile : string := "testresults.log".

(** Timeout, in seconds, of the request that fetches a configuration. *)
Definition httpConfReqTimeout : Z := 30.

(** Template used to generate output report. *)
Definition templateRule : string :=
  String.concat EmptyString (repeat "=" 89).

Definition templText : string :=
  Go.nl ++ templateRule ++ Go.nl
  ++ "[GENERIC TEST RESULTS]" ++ Go.nl
  ++ "Network tested         : {{.Request.NetworkName}}" ++ Go.nl
  ++ "Endpoint requested     : {{.Request.Proto}}://{{.Request.Host}}:{{.Request.Port}}{{.Request.Path}}" ++ Go.nl
  ++ "Connected successfully : {{.Success}}" ++ Go.nl
  ++ "Total request time     : {{.Time}}" ++ Go.nl
  ++ "Failure Message        : {{.FailureMessage}}" ++ Go.nl
  ++ Go.nl
  ++ "[HTTP ONLY RESULTS]" ++ Go.nl
  ++ "HTTP Status code       : {{.Status}}" ++ Go.nl
  ++ "IP-DNS resolution      : {{.IPResolvedStatus}}" ++ Go.nl
  ++ "Response body          : {{.Body}}" ++ Go.nl.

(** *** The fragment of text/template that [templText] uses

    Text is copied; an action between double braces is a chain of field
    names of the record, printed as package fmt prints the value: a string
    as it is, an [int] in decimal, a [bool] as true or false.  Parsing
    refuses an action that is not closed; executing stops at a field the
    record does not have. *)

Inductive Node :=
| TextNode (text : string)
| FieldNode (chain : string).

Fixpoint revString (s acc : string) : string :=
  match s with
  | EmptyString => acc
  | String c r => revString r (String c acc)
  end.

(** [scan s inAction acc]: the nodes of [s]; [acc] holds, reversed, the
    bytes of the node being read. *)
Fixpoint scan (s : string) (inAction : bool) (acc : string)
  : option (list Node) :=
  match s with
  | EmptyString =>
      if inAction then None else Some [TextNode (revString acc EmptyString)]
  | String c tl =>
      match tl with
      | String c' rest =>
          if negb inAction && Ascii.eqb c "{" && Ascii.eqb c' "{" then
            option_map (cons (TextNode (revString acc EmptyString)))
                       (scan rest true EmptyString)
          else if inAction && Ascii.eqb c "}" && Ascii.eqb c' "}" then
            option_map (cons (FieldNode (revString acc EmptyString)))
                       (scan rest false EmptyString)
          else scan tl inAction (String c acc)
      | EmptyString => scan tl inAction (String c acc)
      end
  end.

Definition template_Parse (text : string) : list Node + string :=
  match scan text false EmptyString with
  | Some nodes => inl nodes
  | None => inr "template: outputReport: unclosed action"
  end.

(** The fields of ResponseDetails and of its Request, as printed. *)
Definition fieldText (r : ResponseDetails) (chain : string) : option string :=
  if (chain =? ".Request.NetworkName")%string
  then Some (NetworkName (Request r))
  else if (chain =? ".Request.Host")%string then Some (Host (Request r))
  else if (chain =? ".Request.Path")%string then Some (Path (Request r))
  else if (chain =? ".Request.Port")%string
  then Some (Go.Itoa (Port (Request r)))
  else if (chain =? ".Request.Proto")%string then Some (Proto (Request r))
  else if (chain =? ".Request.Timeout")%string
  then Some (Go.Itoa (Timeout (Request r)))
  else if (chain =? ".Request.CaptureBody")%string
  then Some (GoFiles.FormatBool (CaptureBody (Request r)))
  else if (chain =? ".Success")%string
  then Some (GoFiles.FormatBool (Success r))
  else if (chain =? ".Status")%string then Some (Go.Itoa (Status r))
  else if (chain =? ".FailureMessage")%string then Some (FailureMessage r)
  else if (chain =? ".Body")%string then Some (Body r)
  else if (chain =? ".Time")%string then Some (Time r)
  else if (chain =? ".IPResolvedStatus")%string
  then Some (IPResolvedStatus r)
  else None.

(** [tmpl.Execute]: what reaches the writer.  The error of a missing field
    ends the output there; the program does not look at it. *)
Fixpoint execute (nodes : list Node) (r : ResponseDetails) : string :=
  match nodes with
  | [] => EmptyString
  | TextNode text :: rest => text ++ execute rest r
  | FieldNode chain :: rest =>
      match fieldText r chain with
      | Some text => text ++ execute rest r
      | None => EmptyString
      end
  end.

(** *** The process around the engine

    Files, the standard logger and the exit of the process are not part of
    the [World] of the probes.  They are kept beside it: [syslog] records
    the file reads, the logger lines, the file creations and the texts
    written to the report file and, by the template, to standard output. *)

Inductive Sink := ReportFile | Stdout.

Inductive SysEvent :=
| SysReadFile (path : string) (ret : string * option string)
| SysLogPrintf (format : string) (args : list Arg)
| SysCreate (path : string) (ret : option string)
| SysWrite (sink : Sink) (text : string).

Record Process := mkProcess {
  world : World;
  outputDirectory : string;       (* the package variable of that name *)
  syslog : list SysEvent          (* oldest first *)
}.

(** What a YAML document decodes to, field by field. *)
Record Decoded := mkDecoded {
  decTestName : string;
  decEmail : string;
  decConfig : list Configuration
}.

(** The answers of the file system and of the YAML parser.  What
    [yaml.Unmarshal] stores in a zero TestConfig and the error it returns
    are a function of the document. *)
Record SysEnv := mkSysEnv {
  ioutil_ReadFile : Process -> string -> string * option string;
  os_Create : Process -> string -> option string;
  yaml_Unmarshal : string -> Decoded * option string
}.

(** A call either returns or ends the process with an exit code. *)
Inductive Result (A : Type) :=
| Returned (a : A)
| Exited (code : Z).

Arguments Returned {A} a.
Arguments Exited {A} code.

Definition P (A : Type) : Type := Process -> Result A * Process.

Definition retP {A} (a : A) : P A := fun p => (Returned a, p).

Definition bindP {A B} (m : P A) (k : A -> P B) : P B :=
  fun p =>
    match m p with
    | (Returned a, p') => k a p'
    | (Exited code, p') => (Exited code, p')
    end.

Declare Scope proc_scope.
Delimit Scope proc_scope with proc.
Notation "x <-- m ;;; k" := (bindP m (fun x => k))
  (at level 61, m at next level, right associativity) : proc_scope.
Notation "m ;;; k" := (bindP m (fun _ => k))
  (at level 61, right associativity) : proc_scope.
Local Open Scope proc_scope.

(** Run a computation of the engine inside the process. *)
Definition liftW {A} (m : M A) : P A :=
  fun p => let (a, w') := m (world p) in
           (Returned a, mkProcess w' (outputDirectory p) (syslog p)).

Definition os_Exit {A} (code : Z) : P A := fun p => (Exited code, p).

Definition sysEmit (e : SysEvent) : P unit :=
  fun p => (Returned tt,
            mkProcess (world p) (outputDirectory p) (syslog p ++ [e])%list).

(** The events the process logged between two states. *)
Definition sysSince (p p' : Process) : list SysEvent :=
  skipn (List.length (syslog p)) (syslog p').

(** The texts written to one sink, in order, put together. *)
Fixpoint written (sink : Sink) (l : list SysEvent) : string :=
  match l with
  | [] => EmptyString
  | SysWrite ReportFile text :: l' =>
      match sink with
      | ReportFile => text ++ written sink l'
      | Stdout => written sink l'
      end
  | SysWrite Stdout text :: l' =>
      match sink with
      | ReportFile => written sink l'
      | Stdout => text ++ written sink l'
      end
  | _ :: l' => written sink l'
  end.

Section Program.

Variable env : Env.
Variable sys : SysEnv.

(** The package variables that the command line sets once. *)
Variable timeout : Z.
Variable logFlag : bool.
Variable configLocation : string.
Variable versionFlag : bool.

Definition ReadFile (path : string) : P (string * option string) :=
  fun p => let r := ioutil_ReadFile sys p path in
           (Returned r,
            mkProcess (world p) (outputDirectory p)
                      (syslog p ++ [SysReadFile path r])%list).

Definition Create (path : string) : P (option string) :=
  fun p => let r := os_Create sys p path in
           (Returned r,
            mkProcess (world p) (outputDirectory p)
                      (syslog p ++ [SysCreate path r])%list).

Definition log_Printf (format : string) (args : list Arg) : P unit :=
  sysEmit (SysLogPrintf format args).

(** [yaml.Unmarshal(configData, &config)] on a zero [config]: the decoded
    tests become the array of a new slice.  The error is dropped by both
    callers. *)
Definition Unmarshal (configData : string) : P TestConfig :=
  fun p =>
    let d := fst (yaml_Unmarshal sys configData) in
    (Returned (mkTestConfig (decTestName d) (decEmail d)
                            (mkSlice 0 (List.length (decConfig d)))),
     mkProcess (mkWorld (clock (world p)) (trace (world p)) (decConfig d))
               (outputDirectory p) (syslog p)).

(** downloadConfig fetches the configuration from a web server: the bytes
    (none on failure) and the error.  The error of reading the body is
    dropped; the deferred [resp.Body.Close()] runs on return. *)
Definition downloadConfig (fileLocation : string)
  : P (string * option string) :=
  err <-- liftW (NewRequest env "GET" fileLocation) ;;;
  match err with
  | Some e => retP (EmptyString, Some e)
  | None =>
      done <-- liftW (Do env "GET" fileLocation
                         (Go.Seconds httpConfReqTimeout)) ;;;
      match done with
      | inr errClientReq =>
          log_Printf "Request to retrieve nettest config file failed. Error: %s"
                     [AStr errClientReq] ;;;
          retP (EmptyString, Some errClientReq)
      | inl resp =>
          read <-- liftW (ReadAll env) ;;;
          let '(configResult, _) := read in
          liftW (emit env EvBodyClose) ;;;
          retP (configResult, None)
      end
  end.

(** Parse nettest config (yaml) and return a structured representation,
    TestConfig.  The [err] each branch declares is a variable of that
    branch: the one returned is set by the last test only. *)
Definition parseConfig (fileLocation : string)
  : P (TestConfig * option string) :=
  let config := mkTestConfig EmptyString EmptyString (mkSlice 0 0) in
  let err : option string := None in
  config <--
    (if Go.HasPrefix (Go.ToLower (unicodeToLower env) fileLocation) "http"
     then
       got <-- downloadConfig fileLocation ;;;
       let '(configData, err) := got in
       match err with
       | None => Unmarshal configData
       | Some _ => retP config
       end
     else
       got <-- ReadFile fileLocation ;;;
       let '(configData, err) := got in
       match err with
       | Some e =>
           log_Printf ("Failed to read configuration file. %s" ++ Go.nl)
                      [AStr e] ;;;
           retP config
       | None => Unmarshal configData
       end) ;;;
  let err :=
    if (len (Config config) <? 1)%nat
    then Some "Nettest config was invalid or didn't contain any test cases"
    else err in
  retP (config, err).

Definition setOutputDirectory (dir : string) : P unit :=
  fun p => (Returned tt, mkProcess (world p) dir (syslog p)).

Definition getOutputDirectory : P string :=
  fun p => (Returned (outputDirectory p), p).

(** [for _, testResult := range results] of generateReport. *)
Fixpoint reportLoop (tmpl : list Node) (results : list ResponseDetails)
  : P unit :=
  match results with
  | [] => retP tt
  | testResult :: rest =>
      sysEmit (SysWrite ReportFile (execute tmpl testResult)) ;;;
      (if logFlag
       then sysEmit (SysWrite Stdout (execute tmpl testResult))
       else retP tt) ;;;
      reportLoop tmpl rest
  end.

(** generateReport uses a go template to create a file detailing all the
    test results that were contained in the ResponseDetails slice. *)
Definition generateReport (test : TestConfig) (results : list ResponseDetails)
  : P unit :=
  dir <-- getOutputDirectory ;;;
  (if negb (GoFiles.HasSuffix dir "/")
   then setOutputDirectory (dir ++ "/")
   else retP tt) ;;;
  dir <-- getOutputDirectory ;;;
  err <-- Create (dir ++ logfile) ;;;
  match err with
  | Some e =>
      liftW (Printf env "Error. Failed to create file %s: %s"
                    [AStr logfile; AStr e]) ;;;
      os_Exit 1
  | None =>
      sysEmit (SysWrite ReportFile ("Test suite: " ++ TestName test)) ;;;
      match template_Parse templText with
      | inr e =>
          liftW (Printf env "Failed to parse output template. Exiting. %s"
                        [AStr e]) ;;;
          os_Exit 1
      | inl tmpl =>
          reportLoop tmpl results ;;;
          liftW (Printf env
                   (Go.nl ++ "Network test(s) complete." ++ Go.nl
                    ++ "Please check file %s for more details."
                    ++ Go.nl ++ Go.nl)
                   [AStr logfile])
      end
  end.

(** The banner. *)
Definition boxRule (left right : string) : string :=
  left ++ String.concat EmptyString (repeat ruleGlyph 72) ++ right.

Definition boxGlyph (last : nat) : string :=
  String (ascii_of_nat 226)
    (String (ascii_of_nat 148) (String (ascii_of_nat last) EmptyString)).

Definition spaces (n : nat) : string :=
  String.concat EmptyString (repeat " " n).

Definition intro : M unit :=
  (Printf env (boxRule (boxGlyph 140) (boxGlyph 144) ++ Go.nl) [] ;;
   Printf env (boxGlyph 130 ++ " %s// N E T T E S T //%s" ++ spaces 52
                 ++ boxGlyph 130 ++ Go.nl)
          [AStr (CLR_RED env); AStr (CLR_N env)] ;;
   Printf env (boxGlyph 130 ++ " Network Connectivity Testing Utility v%s"
                 ++ spaces 30 ++ boxGlyph 130 ++ Go.nl)
          [AStr version] ;;
   Printf env (boxRule (boxGlyph 148) (boxGlyph 152) ++ Go.nl) [])%go.

Definition main : P unit :=
  if versionFlag then
    liftW (Printf env ("Nettest version %s" ++ Go.nl) [AStr version])
  else
    liftW intro ;;;
    parsed <-- parseConfig configLocation ;;;
    let '(config, err) := parsed in
    match err with
    | Some _ =>
        liftW (Printf env
                 (Go.nl ++ "Program exiting due to nettest config file error."
                  ++ Go.nl
                  ++ "Please check your configuration file for errors."
                  ++ Go.nl) []) ;;;
        os_Exit 1
    | None =>
        results <-- liftW (runTests env timeout config) ;;;
        generateReport config results
    end.

End Program.

(** *** Notions used to state the properties of the process *)

(** The report entry of one record: what [generateReport] writes for it. *)
Definition reportEntry (r : ResponseDetails) : string :=
  match template_Parse templText with
  | inl tmpl => execute tmpl r
  | inr _ => EmptyString
  end.

(** The entries of a list of records, one after the other. *)
Definition reportEntries (results : list ResponseDetails) : string :=
  fold_right append EmptyString (map reportEntry results).

(** What the loop of [generateReport] logs for one record. *)
Definition entryWrites (logFlag : bool) (text : string) : list SysEvent :=
  SysWrite ReportFile text
  :: (if logFlag then [SysWrite Stdout text] else []).

(** The interactions only a probe makes: the download of a configuration
    neither dials nor resolves. *)
Definition isProbeIO (e : Event) : bool :=
  match e with
  | EvDialTimeout _ _ _ _ => true
  | EvResolveIPAddr _ _ _ => true
  | _ => false
  end.

(** The events of the report: file creation and writes. *)
Definition isReportEvent (e : SysEvent) : bool :=
  match e with
  | SysCreate _ _ => true
  | SysWrite _ _ => true
  | _ => false
  end.

(** The run of one test: its segment of the log and its record. *)
Definition ranAs (env : Env) (timeout : Z) (t : Configuration)
           (run : list Event * ResponseDetails) : Prop :=
  exists testNr, TestPath env timeout t testNr (fst run) (snd run).

(** The directory [generateReport] settles on. *)
Definition normalDirectory (dir : string) : string :=
  if GoFiles.HasSuffix dir "/" then dir else dir ++ "/".

(** *** The ways to obtain the configuration document

    What [downloadConfig], and the first half of [parseConfig], leave
    behind: the interactions logged in the world, the events logged by the
    process, and the document with the error that came with it. *)

(** The error [parseConfig] returns. *)
Definition noTestCases : string :=
  "Nettest config was invalid or didn't contain any test cases".

Section Obtain.

Variable env : Env.
Variable fileLocation : string.

Inductive DownloadPath
  : list Event -> list SysEvent -> string * option string -> Prop :=
| DownloadRefused : forall e,
    DownloadPath [EvNewRequest "GET" fileLocation (Some e)] []
                 (EmptyString, Some e)
| DownloadFailed : forall f e,
    DownloadPath
      [EvNewRequest "GET" fileLocation None;
       EvClientDo "GET" fileLocation (Go.Seconds httpConfReqTimeout) (inr e)]
      [SysLogPrintf f [AStr e]]
      (EmptyString, Some e)
| Downloaded : forall resp configResult readErr,
    DownloadPath
      [EvNewRequest "GET" fileLocation None;
       EvClientDo "GET" fileLocation (Go.Seconds httpConfReqTimeout)
                  (inl resp);
       EvReadAll (configResult, readErr);
       EvBodyClose]
      []
      (configResult, None).

Inductive ObtainPath
  : list Event -> list SysEvent -> string * option string -> Prop :=
| FromWeb : forall wl sl got,
    Go.HasPrefix (Go.ToLower (unicodeToLower env) fileLocation) "http" = true ->
    DownloadPath wl sl got ->
    ObtainPath wl sl got
| FileUnreadable : forall f configData e,
    Go.HasPrefix (Go.ToLower (unicodeToLower env) fileLocation) "http" = false ->
    ObtainPath []
               [SysReadFile fileLocation (configData, Some e);
                SysLogPrintf f [AStr e]]
               (configData, Some e)
| FileRead : forall configData,
    Go.HasPrefix (Go.ToLower (unicodeToLower env) fileLocation) "http" = false ->
    ObtainPath [] [SysReadFile fileLocation (configData, None)]
               (configData, None).

End Obtain.

(** What [parseConfig] returns for a document and its error, and the
    array its slice shows: the decoded tests, or nothing when the document
    could not be obtained.  The error of the YAML parser plays no part. *)
Definition parsedConfig (sys : SysEnv) (got : string * option string)
  : option Decoded :=
  match snd got with
  | None => Some (fst (yaml_Unmarshal sys (fst got)))
  | Some _ => None
  end.

(** *** Sample file systems and processes *)

Definition staticSys (readFile : string * option string)
           (create : option string)
           (decoded : Decoded * option string) : SysEnv :=
  mkSysEnv (fun _ _ => readFile) (fun _ _ => create) (fun _ => decoded).

Definition sampleDecoded : Decoded :=
  mkDecoded "Network Test Valid 1" "john.doe@email.com"
            [google; amazon; mailhost; fileserver].

(** A configuration file that is there and a directory one can write to. *)
Definition goodSys : SysEnv :=
  staticSys ("testname: Network Test Valid 1", None) None
            (sampleDecoded, None).


(** A directory one cannot write to. *)
Definition readOnlySys : SysEnv :=
  staticSys ("testname: Network Test Valid 1", None)
            (Some "open ./testresults.log: permission denied")
            (sampleDecoded, None).

(** A document that decodes to its first tests and then goes wrong. *)
Definition brokenYamlSys : SysEnv :=
  staticSys ("testname: Network Test Valid 1", None) None
            (mkDecoded "Network Test Valid 1" EmptyString [google],
             Some "yaml: line 9: did not find expected key").

Definition sampleProcess : Process :=
  mkProcess (mkWorld 0 [] []) "." [].

(* ===================================================================== *)
(** ** Facts about the library functions                                  *)
(* ===================================================================== *)

Lemma append_empty_r (a b : string) :
  (a ++ b)%string = EmptyString -> b = EmptyString.
Proof.
  destruct a as [|c a]; simpl; [trivial | discriminate].
Qed.

Lemma firstByte_append (a b : string) :
  a <> EmptyString ->
  isNegativeText (a ++ b) = isNegativeText a.
Proof.
  destruct a as [|c a]; simpl; [congruence | reflexivity].
Qed.

Lemma digits_head (u : Decimal.uint) :
  NilZero.string_of_uint u <> EmptyString /\
  isNegativeText (NilZero.string_of_uint u) = false.
Proof.
  destruct u; simpl; split; (discriminate || reflexivity).
Qed.

Lemma fmtInt_nonempty (w : string) (v : N) : Go.fmtInt w v <> EmptyString.
Proof.
  unfold Go.fmtInt. intros H.
  destruct (digits_head (N.to_uint v)) as [Hne _].
  destruct (NilZero.string_of_uint (N.to_uint v)); [congruence | discriminate].
Qed.

Lemma fmtInt_positive (w : string) (v : N) :
  isNegativeText (Go.fmtInt w v) = false.
Proof.
  unfold Go.fmtInt.
  destruct (digits_head (N.to_uint v)) as [Hne Hpos].
  rewrite firstByte_append; assumption.
Qed.

(** Whatever its sign, a duration is rendered as a text that is not
    empty. *)
Lemma Duration_String_nonempty (d : Z) : Go.Duration_String d <> EmptyString.
Proof.
  unfold Go.Duration_String.
  destruct (d <? 0); [discriminate |].
  repeat match goal with
         | |- context [if ?b then _ else _] => destruct b
         | |- context [let '(_, _) := ?p in _] => destruct p
         end;
    (discriminate || apply fmtInt_nonempty).
Qed.

(** A duration that is not negative is rendered without a minus sign. *)
Lemma Duration_String_positive (d : Z) :
  0 <= d -> isNegativeText (Go.Duration_String d) = false.
Proof.
  intros Hd. unfold Go.Duration_String.
  destruct (Z.ltb_spec d 0) as [Hneg | _]; [lia |].
  repeat match goal with
         | |- context [if ?b then _ else _] => destruct b
         | |- context [let '(_, _) := ?p in _] => destruct p
         end;
    (reflexivity || apply fmtInt_positive).
Qed.

(** Between two readings of a clock that does not run backwards, the
    elapsed time is not negative. *)
Lemma Sub_nonneg (t u : Z) : u <= t -> 0 <= Go.Sub t u.
Proof.
  intros H. unfold Go.Sub, Go.minDuration, Go.maxDuration.
  change (2 ^ 63) with 9223372036854775808. lia.
Qed.

(** *** Lower-casing *)

Lemma lowerByte_not_upper (c : ascii) :
  (nat_of_ascii c < 128)%nat -> Go.isUpper (Go.lowerByte c) = false.
Proof.
  intros Hc. unfold Go.lowerByte.
  destruct (Go.isUpper c) eqn:Hu; [| exact Hu].
  unfold Go.isUpper in *.
  apply andb_true_iff in Hu. destruct Hu as [H1 H2].
  apply Nat.leb_le in H1. apply Nat.leb_le in H2.
  rewrite nat_ascii_embedding by lia.
  apply andb_false_iff. right. apply Nat.leb_gt. lia.
Qed.

Lemma lowerByte_ascii (c : ascii) :
  (nat_of_ascii c < 128)%nat -> (nat_of_ascii (Go.lowerByte c) < 128)%nat.
Proof.
  intros Hc. unfold Go.lowerByte.
  destruct (Go.isUpper c) eqn:Hu; [| exact Hc].
  unfold Go.isUpper in Hu.
  apply andb_true_iff in Hu. destruct Hu as [H1 H2].
  apply Nat.leb_le in H1. apply Nat.leb_le in H2.
  rewrite nat_ascii_embedding by lia. lia.
Qed.

Lemma mapBytes_lower_ascii (s : string) :
  Go.isASCII s = true ->
  Go.isASCII (Go.mapBytes Go.lowerByte s) = true /\
  Go.hasByte Go.isUpper (Go.mapBytes Go.lowerByte s) = false.
Proof.
  induction s as [|c s IH]; simpl; intros H; [split; reflexivity |].
  apply andb_true_iff in H. destruct H as [Hc Hs].
  apply Nat.ltb_lt in Hc.
  destruct (IH Hs) as [IH1 IH2].
  rewrite IH1, IH2, lowerByte_not_upper by exact Hc.
  split; [| reflexivity].
  apply andb_true_iff. split; [| reflexivity].
  apply Nat.ltb_lt, lowerByte_ascii, Hc.
Qed.

(** On a string of ASCII bytes, lower-casing twice is lower-casing once. *)
Lemma ToLower_idempotent (u : string -> string) (s : string) :
  Go.isASCII s = true -> Go.ToLower u (Go.ToLower u s) = Go.ToLower u s.
Proof.
  intros Hs. unfold Go.ToLower. rewrite Hs.
  destruct (Go.hasByte Go.isUpper s) eqn:Hu.
  - destruct (mapBytes_lower_ascii s Hs) as [H1 H2].
    rewrite H1, H2. reflexivity.
  - rewrite Hs, Hu. reflexivity.
Qed.

(* ===================================================================== *)
(** ** Running the probes                                                 *)
(* ===================================================================== *)

Lemma emit_spec env (e : Event) (w : World) :
  exists w1,
    emit env e w = (tt, w1) /\
    trace w1 = (trace w ++ [e])%list /\ heap w1 = heap w /\
    clock w <= clock w1.
Proof.
  eexists. split; [reflexivity |]. cbn [trace heap clock].
  repeat split. lia.
Qed.

Lemma since_trace (w w' : World) (l : list Event) :
  trace w' = (trace w ++ l)%list -> since w w' = l.
Proof.
  intros H. unfold since. rewrite H. clear H.
  induction (trace w) as [|e t IH]; simpl; [reflexivity | exact IH].
Qed.

(** Unfold the program down to its interactions. *)
Ltac run_program :=
  cbv beta iota zeta delta
      [testHTTPConnection testTCPConnection runTest bind ret Printf
       time_Now time_Since NewRequest ResolveIPAddr Do ReadAll DialTimeout
       index fst snd].

(** One interaction: name its answer, then the world it leaves. *)
Ltac step :=
  match goal with
  | |- context [http_NewRequest ?e ?m ?u] =>
      destruct (http_NewRequest e m u) eqn:?
  | |- context [net_ResolveIPAddr ?e ?w ?n ?h] =>
      destruct (net_ResolveIPAddr e w n h) as [? ?] eqn:?
  | |- context [client_Do ?e ?w ?m ?u ?d] =>
      destruct (client_Do e w m u d) eqn:?
  | |- context [ioutil_ReadAll ?e ?w] =>
      destruct (ioutil_ReadAll e w) as [? ?] eqn:?
  | |- context [net_DialTimeout ?e ?w ?n ?a ?d] =>
      destruct (net_DialTimeout e w n a d) eqn:?
  | |- context [if CaptureBody ?t then _ else _] =>
      destruct (CaptureBody t) eqn:?
  | |- context [emit ?env ?e ?w] =>
      is_var w;
      let w1 := fresh "w" in
      let Hrun := fresh "Hrun" in
      let Htr := fresh "Htr" in
      let Hhp := fresh "Hhp" in
      let Hck := fresh "Hck" in
      destruct (emit_spec env e w) as (w1 & Hrun & Htr & Hhp & Hck);
      rewrite Hrun; clear Hrun
  | |- context [match ?x with _ => _ end] => is_var x; destruct x
  end;
  cbv beta iota zeta delta [fst snd].

(** The log and the heap at the end, from the chain of single steps. *)
Ltac chain :=
  repeat match goal with
         | H : trace ?w1 = (trace ?w0 ++ _)%list |- _ =>
             rewrite H; clear H
         | H : heap ?w1 = heap ?w0 |- _ => rewrite H; clear H
         end;
  repeat rewrite <- app_assoc; cbn [app].

Lemma requestURL_defaulted (timeout : Z) (t : Configuration) :
  urlText
    (if negb (Go.HasPrefix (Path (defaulted timeout t)) "/")
     then set_Path ("/" ++ Path (defaulted timeout t)) (defaulted timeout t)
     else defaulted timeout t) = requestURL t.
Proof.
  unfold defaulted, requestURL, urlText.
  destruct (Timeout t =? 0); cbn [set_Timeout Path Proto Host Port];
    destruct (Go.HasPrefix (Path t) "/"); reflexivity.
Qed.

Lemma defaulted_fields (timeout : Z) (t : Configuration) :
  Host (defaulted timeout t) = Host t /\
  Port (defaulted timeout t) = Port t /\
  Path (defaulted timeout t) = Path t /\
  Proto (defaulted timeout t) = Proto t /\
  NetworkName (defaulted timeout t) = NetworkName t /\
  CaptureBody (defaulted timeout t) = CaptureBody t.
Proof.
  unfold defaulted. destruct (Timeout t =? 0); simpl; repeat split.
Qed.

(** Every call of the HTTP probe follows one of its four paths, leaves the
    configuration array alone and does not turn the clock back. *)
Ltac record_fields :=
  cbv beta iota delta
      [set_Request set_Success set_Status set_FailureMessage set_Body
       set_Time set_IPResolvedStatus zeroResponseDetails
       Request Success Status FailureMessage Body Time IPResolvedStatus].

Ltac clock_order := apply Sub_nonneg; lia.

Ltac close_path :=
  record_fields;
  split; [erewrite since_trace by (chain; reflexivity) |
          split; [chain; reflexivity | lia]].

(** Every call of the HTTP probe follows one of its four paths, leaves the
    configuration array alone and does not turn the clock back. *)
Lemma testHTTPConnection_path env timeout testNr t w :
  let (r, w') := testHTTPConnection env timeout testNr t w in
  HTTPPath env timeout t (since w w') r /\
  heap w' = heap w /\ clock w <= clock w'.
Proof.
  run_program.
  fold (defaulted timeout t).
  rewrite requestURL_defaulted.
  destruct (defaulted_fields timeout t) as (Hh & _ & _ & _ & _ & Hc).
  destruct (Go.HasPrefix (Path (defaulted timeout t)) "/");
    cbn [negb set_Path Host Timeout CaptureBody NetworkName];
    rewrite ?Hh, ?Hc;
    repeat step; close_path;
    econstructor; solve [eassumption | clock_order].
Qed.

(** Every call of the TCP probe follows one of its two paths. *)
Lemma testTCPConnection_path env timeout testNr t w :
  let (r, w') := testTCPConnection env timeout testNr t w in
  TCPPath timeout t (since w w') r /\
  heap w' = heap w /\ clock w <= clock w'.
Proof.
  run_program.
  fold (defaulted timeout t).
  destruct (defaulted_fields timeout t) as (Hh & Hp & _).
  rewrite ?Hh, ?Hp.
  repeat step; close_path; econstructor; clock_order.
Qed.

(** The loop body does what the routing decision says. *)
Lemma runTest_route env timeout testNr t :
  runTest env timeout testNr t =
  match route env (Proto t) with
  | HTTPProbe => testHTTPConnection env timeout testNr t
  | TCPProbe => testTCPConnection env timeout testNr t
  | Unsupported =>
      let cause :=
        failureCauseText testNr (Go.ToLower (unicodeToLower env) (Proto t))
                         (Host t) in
      bind (Printf env cause [])
           (fun _ => ret (set_FailureMessage cause
                            (set_Request t zeroResponseDetails)))
  end.
Proof.
  unfold runTest, route.
  destruct (_ || _)%bool; [reflexivity |].
  destruct (_ =? "tcp")%string; reflexivity.
Qed.

(** Every iteration of the loop follows one path of its routing decision. *)
Lemma runTest_path env timeout testNr t w :
  let (r, w') := runTest env timeout testNr t w in
  TestPath env timeout t testNr (since w w') r /\
  heap w' = heap w /\ clock w <= clock w'.
Proof.
  rewrite runTest_route. unfold TestPath.
  destruct (route env (Proto t)).
  - apply testHTTPConnection_path.
  - apply testTCPConnection_path.
  - run_program. repeat step. close_path. constructor.
Qed.

(** *** What a path tells about its record *)

Lemma defaulted_echoes (timeout : Z) (t : Configuration) (r : ResponseDetails) :
  Request r = defaulted timeout t -> echoes timeout t r.
Proof.
  unfold defaulted, echoes. intros H.
  destruct (Z.eqb_spec (Timeout t) 0) as [Hz | _]; [right | left]; auto.
Qed.

Lemma HTTPPath_request env timeout t l r :
  HTTPPath env timeout t l r -> Request r = defaulted timeout t.
Proof. destruct 1; reflexivity. Qed.

Lemma TCPPath_request timeout t l r :
  TCPPath timeout t l r -> Request r = defaulted timeout t.
Proof. destruct 1; reflexivity. Qed.

Lemma TestPath_echoes env timeout t testNr l r :
  TestPath env timeout t testNr l r -> echoes timeout t r.
Proof.
  unfold TestPath. destruct (route env (Proto t)); intros H.
  - eapply defaulted_echoes, HTTPPath_request, H.
  - eapply defaulted_echoes, TCPPath_request, H.
  - destruct H. left. reflexivity.
Qed.

(** *** The loop *)

Lemma skipn_head {A} (d : A) (l : list A) (k : nat) :
  (k < List.length l)%nat -> skipn k l = nth k l d :: skipn (S k) l.
Proof.
  revert k. induction l as [|x l IH]; intros k Hk; simpl in Hk; [lia |].
  destruct k as [|k]; [reflexivity |].
  cbn [skipn nth]. rewrite (IH k) by lia. reflexivity.
Qed.

(** The loop appends one record per remaining element, in the order of the
    elements, and leaves the backing array as it found it. *)
Lemma rangeLoop_spec env timeout s :
  forall n testNr results w,
    (base s + testNr + n <= List.length (heap w))%nat ->
    let (res, w') := rangeLoop env timeout s n testNr results w in
    (exists rs,
        res = (results ++ rs)%list /\
        Forall2 (echoes timeout)
                (firstn n (skipn (base s + testNr) (heap w))) rs) /\
    heap w' = heap w /\ clock w <= clock w'.
Proof.
  induction n as [|n IH]; intros testNr results w Hb.
  - cbn [rangeLoop ret firstn]. split; [| split; [reflexivity | lia]].
    exists []. rewrite app_nil_r. split; [reflexivity | constructor].
  - cbn [rangeLoop]. unfold bind at 1. unfold index.
    unfold bind at 1.
    pose proof (runTest_path env timeout (Z.of_nat testNr)
                  (nth (base s + testNr) (heap w) zeroConfiguration) w)
      as Hstep.
    destruct (runTest env timeout (Z.of_nat testNr)
                (nth (base s + testNr) (heap w) zeroConfiguration) w)
      as [resp w1].
    destruct Hstep as (Hpath & Hheap & Hclock).
    specialize (IH (S testNr) (results ++ [resp])%list w1).
    rewrite Hheap in IH.
    destruct (rangeLoop env timeout s n (S testNr) (results ++ [resp])%list w1)
      as [res w'].
    destruct IH as ((rs & Hres & Hall) & Hheap' & Hclock'); [lia |].
    split; [| split; [assumption | lia]].
    exists (resp :: rs). split.
    + rewrite Hres, <- app_assoc. reflexivity.
    + rewrite (skipn_head zeroConfiguration) by lia.
      cbn [firstn]. constructor.
      * eapply TestPath_echoes, Hpath.
      * replace (S (base s + testNr)) with (base s + S testNr)%nat by lia.
        exact Hall.
Qed.

(** [runTests] appends to an empty list. *)
Lemma runTests_spec env timeout config w :
  inBounds (Config config) w ->
  let (results, w') := runTests env timeout config w in
  Forall2 (echoes timeout) (elements (Config config) w) results /\
  heap w' = heap w /\ clock w <= clock w'.
Proof.
  unfold inBounds, elements. intros Hb.
  unfold runTests, Printf.
  cbv beta iota zeta delta [bind].
  do 2 step.
  pose proof (rangeLoop_spec env timeout (Config config)
                (len (Config config)) 0 [] w1) as Hloop.
  rewrite Nat.add_0_r in Hloop.
  destruct (rangeLoop env timeout (Config config) (len (Config config)) 0 [] w1)
    as [results w'].
  destruct Hloop as ((rs & Hres & Hall) & Hheap & Hclock).
  - rewrite Hhp0, Hhp. lia.
  - cbn [app] in Hres. subst rs.
    rewrite Hhp0, Hhp in Hall, Hheap.
    split; [exact Hall | split; [exact Hheap | lia]].
Qed.

(* ===================================================================== *)
(** ** The properties of the specification                                *)
(* ===================================================================== *)

(** C1. For every configuration slice of N tests, [runTests] returns N
    records, the i-th of which echoes the i-th test (its request is that
    test, with the default filled in for a timeout of zero), whatever the
    outside world answers: no outcome of a test stops the loop or drops a
    record. *)
Theorem runTests_one_record_per_target env timeout config w :
  inBounds (Config config) w ->
  let results := fst (runTests env timeout config w) in
  List.length (elements (Config config) w) = len (Config config) /\
  List.length results = len (Config config) /\
  Forall2 (echoes timeout) (elements (Config config) w) results.
Proof.
  intros Hb results. subst results.
  pose proof (runTests_spec env timeout config w Hb) as H.
  destruct (runTests env timeout config w) as [results w'].
  destruct H as (Hall & _). cbn [fst].
  assert (Hlen : List.length (elements (Config config) w)
                 = len (Config config)).
  { unfold elements, inBounds in *.
    rewrite length_firstn, length_skipn. lia. }
  split; [exact Hlen | split; [| exact Hall]].
  rewrite <- Hlen. symmetry. eapply Forall2_length, Hall.
Qed.

Lemma runTests_one_record_per_target_witness :
  let results := fst (runTests unreachableEnv 10 sampleConfig sampleWorld) in
  List.length (elements (Config sampleConfig) sampleWorld) = 4%nat /\
  List.length results = 4%nat /\
  Forall2 (echoes 10) (elements (Config sampleConfig) sampleWorld) results.
Proof.
  apply (runTests_one_record_per_target unreachableEnv 10 sampleConfig
                                        sampleWorld).
  unfold inBounds. simpl. lia.
Defined.

(** An example beside C2: a test whose URL [http.NewRequest] refuses comes
    back from the early return of the HTTP probe with no elapsed time. *)
Example refused_request_has_no_elapsed_time :
  let r := fst (testHTTPConnection badURLEnv 10 0 google sampleWorld) in
  FailureMessage r = "invalid port after host" /\ Time r = EmptyString.
Proof. vm_compute. split; reflexivity. Qed.

(** C2, as stated, fails: the record made up for a protocol that is not
    supported carries no elapsed time. *)
Lemma unsupported_protocol_is_not_timed :
  route notFoundEnv (Proto fileserver) = Unsupported /\
  Time (fst (runTest notFoundEnv 10 3 fileserver sampleWorld)) = EmptyString /\
  ~ timed (fst (runTest notFoundEnv 10 3 fileserver sampleWorld)).
Proof.
  split; [reflexivity | split; [reflexivity |]].
  intros (d & _ & _ & Hne & _). apply Hne. vm_compute. reflexivity.
Qed.

(** C2, amended. On the four paths where a probe talks to the network (TCP
    dial done or failed, HTTP round trip done or failed) the elapsed-time
    field holds the rendering of a duration that is not negative: it is not
    empty and has no minus sign.  The record made up for a protocol that is
    not supported has an empty elapsed-time field. *)
Theorem elapsed_time_by_path env timeout testNr t w :
  timed (fst (testTCPConnection env timeout testNr t w)) /\
  (http_NewRequest env "GET" (requestURL t) = None ->
   timed (fst (testHTTPConnection env timeout testNr t w))) /\
  (route env (Proto t) = Unsupported ->
   Time (fst (runTest env timeout testNr t w)) = EmptyString).
Proof.
  split; [| split].
  - pose proof (testTCPConnection_path env timeout testNr t w) as H.
    destruct (testTCPConnection env timeout testNr t w) as [r w'].
    destruct H as (Hpath & _). cbn [fst].
    destruct Hpath;
      (eexists; cbn [Time]; repeat split;
       [eassumption | apply Duration_String_nonempty
        | apply Duration_String_positive; assumption]).
  - intros Hreq.
    pose proof (testHTTPConnection_path env timeout testNr t w) as H.
    destruct (testHTTPConnection env timeout testNr t w) as [r w'].
    destruct H as (Hpath & _). cbn [fst].
    destruct Hpath; try congruence;
      (eexists; cbn [Time]; repeat split;
       [eassumption | apply Duration_String_nonempty
        | apply Duration_String_positive; assumption]).
  - intros Hroute.
    pose proof (runTest_path env timeout testNr t w) as H.
    destruct (runTest env timeout testNr t w) as [r w'].
    destruct H as (Hpath & _). cbn [fst].
    unfold TestPath in Hpath. rewrite Hroute in Hpath.
    destruct Hpath. reflexivity.
Qed.

Lemma elapsed_time_by_path_witness :
  timed (fst (testTCPConnection notFoundEnv 10 2 mailhost sampleWorld)) /\
  timed (fst (testHTTPConnection notFoundEnv 10 0 google sampleWorld)) /\
  Time (fst (runTest notFoundEnv 10 3 fileserver sampleWorld)) = EmptyString.
Proof.
  destruct (elapsed_time_by_path notFoundEnv 10 2 mailhost sampleWorld)
    as (Htcp & _ & _).
  destruct (elapsed_time_by_path notFoundEnv 10 0 google sampleWorld)
    as (_ & Hhttp & _).
  destruct (elapsed_time_by_path notFoundEnv 10 3 fileserver sampleWorld)
    as (_ & _ & Hnone).
  split; [exact Htcp | split; [apply Hhttp | apply Hnone]]; reflexivity.
Defined.

(** C3, as stated, fails: a test with an empty path is requested with a
    trailing slash, not at the bare host and port. *)
Lemma empty_path_gets_a_slash :
  In (EvClientDo "GET" "http://google.com:80/" 10000000000
                 (inl (mkResponse 404)))
     (since sampleWorld
            (snd (testHTTPConnection notFoundEnv 10 0 google sampleWorld))) /\
  specURL google = "http://google.com:80" /\
  "http://google.com:80/" <> specURL google.
Proof.
  vm_compute. split; [| split; [reflexivity | discriminate]].
  right. right. right. left. reflexivity.
Qed.

(** C3, amended. The HTTP probe prepends a slash to every path that does
    not start with one, the empty path included: the URL it builds and
    asks for is proto://host:port followed by the path, or by a slash and
    the path.  Path foo is requested at /foo, the empty path at /.  For a
    path that is not empty this is the URL the specification words. *)
Theorem request_url_gets_leading_slash env timeout testNr t w :
  let w' := snd (testHTTPConnection env timeout testNr t w) in
  let url :=
    Proto t ++ "://" ++ Host t ++ ":" ++ Go.Itoa (Port t)
      ++ (if Go.HasPrefix (Path t) "/" then Path t else "/" ++ Path t) in
  (exists ret, In (EvNewRequest "GET" url ret) (since w w')) /\
  (forall m u ret, In (EvNewRequest m u ret) (since w w') -> u = url) /\
  (forall m u d ret, In (EvClientDo m u d ret) (since w w') -> u = url) /\
  (Path t <> EmptyString -> url = specURL t).
Proof.
  intros w' url. subst w'.
  pose proof (testHTTPConnection_path env timeout testNr t w) as H.
  destruct (testHTTPConnection env timeout testNr t w) as [r w'].
  destruct H as (Hpath & _). cbn [snd].
  change url with (requestURL t). clear url.
  split; [| split; [| split]].
  - destruct Hpath; eexists; cbn [In]; right; left; reflexivity.
  - intros m u ret Hin.
    destruct Hpath; cbn [In] in Hin;
      repeat (destruct Hin as [Hin | Hin]; [inversion Hin; reflexivity |]);
      contradiction.
  - intros m u d ret Hin.
    destruct Hpath; cbn [In] in Hin;
      repeat (destruct Hin as [Hin | Hin];
              [try discriminate Hin; inversion Hin; reflexivity |]);
      contradiction.
  - intros Hne. unfold requestURL, specURL.
    destruct (Path t) as [|c p]; [congruence |].
    cbn [String.eqb negb andb].
    destruct (Go.HasPrefix (String c p) "/"); reflexivity.
Qed.

Lemma request_url_gets_leading_slash_witness :
  let w' := snd (testHTTPConnection notFoundEnv 10 1 amazon sampleWorld) in
  In (EvClientDo "GET" "HTTPS://amazon.com:443/foo" 5000000000
                 (inl (mkResponse 404))) (since sampleWorld w') /\
  "HTTPS://amazon.com:443/foo" = specURL amazon.
Proof.
  pose proof (request_url_gets_leading_slash notFoundEnv 10 1 amazon
                                             sampleWorld) as (_ & _ & _ & H).
  split.
  - vm_compute. right. right. right. left. reflexivity.
  - apply H. discriminate.
Defined.

(** C4, as stated, fails: when the body read breaks off, the bytes read so
    far are stored in the record; the body is not left empty. *)
Lemma broken_body_is_kept :
  let run := testHTTPConnection brokenBodyEnv 10 1 amazon sampleWorld in
  CaptureBody amazon = true /\
  In (EvClientDo "GET" "HTTPS://amazon.com:443/foo" 5000000000
                 (inl (mkResponse 200))) (since sampleWorld (snd run)) /\
  In (EvReadAll ("<html><bo", Some "unexpected EOF"))
     (since sampleWorld (snd run)) /\
  Success (fst run) = true /\
  Body (fst run) = "<html><bo" /\
  Body (fst run) <> EmptyString.
Proof.
  vm_compute.
  repeat split; try discriminate.
  - right. right. right. left. reflexivity.
  - right. right. right. right. left. reflexivity.
Qed.

(** C4, amended. When the round trip of an HTTP test succeeds and reading
    the body then fails, which only happens for a test with capture_body
    set, the record keeps success=true and an empty failure message, and
    its body field holds the bytes that were read before the failure. *)
Theorem body_read_failure_keeps_success env timeout testNr t w data e :
  In (EvReadAll (data, Some e))
     (since w (snd (testHTTPConnection env timeout testNr t w))) ->
  let r := fst (testHTTPConnection env timeout testNr t w) in
  CaptureBody t = true /\
  Success r = true /\ FailureMessage r = EmptyString /\ Body r = data.
Proof.
  pose proof (testHTTPConnection_path env timeout testNr t w) as H.
  destruct (testHTTPConnection env timeout testNr t w) as [r w'].
  destruct H as (Hpath & _). cbn [fst snd]. intros Hin.
  destruct Hpath; cbn [In] in Hin;
    repeat (destruct Hin as [Hin | Hin]; [try discriminate Hin |]);
    try contradiction.
  inversion Hin; subst. cbn. auto.
Qed.

Lemma body_read_failure_keeps_success_witness :
  let r := fst (testHTTPConnection brokenBodyEnv 10 1 amazon sampleWorld) in
  CaptureBody amazon = true /\
  Success r = true /\ FailureMessage r = EmptyString /\
  Body r = "<html><bo".
Proof.
  apply (body_read_failure_keeps_success brokenBodyEnv 10 1 amazon
           sampleWorld "<html><bo" "unexpected EOF").
  vm_compute. right. right. right. right. left. reflexivity.
Defined.

(** C5, as stated, fails: the failure message is not the text the
    specification gives, neither with the protocol as configured nor with
    the protocol in lower case. *)
Lemma unsupported_protocol_message_differs :
  let r := fst (runTest notFoundEnv 10 3 fileserver sampleWorld) in
  route notFoundEnv (Proto fileserver) = Unsupported /\
  FailureMessage r <> specFailureMessage "FTP" "ftp.example.com" /\
  FailureMessage r <> specFailureMessage "ftp" "ftp.example.com".
Proof.
  vm_compute. repeat split; discriminate.
Qed.

Lemma not_routed (env : Env) (proto : string) :
  ~ In (Go.ToLower (unicodeToLower env) proto) ["tcp"; "http"; "https"] ->
  route env proto = Unsupported.
Proof.
  intros Hout. unfold route.
  destruct (String.eqb_spec (Go.ToLower (unicodeToLower env) proto) "http")
    as [E | _]; [exfalso; apply Hout; rewrite E; simpl; auto |].
  destruct (String.eqb_spec (Go.ToLower (unicodeToLower env) proto) "https")
    as [E | _]; [exfalso; apply Hout; rewrite E; simpl; auto |].
  destruct (String.eqb_spec (Go.ToLower (unicodeToLower env) proto) "tcp")
    as [E | _]; [exfalso; apply Hout; rewrite E; simpl; auto |].
  reflexivity.
Qed.

(** C5, amended. For a test whose protocol, in lower case, is none of tcp,
    http and https, the loop body logs one progress line and nothing else:
    it performs no network I/O.  The record has success=false, the
    test as its request, and as failure message the index of the test in
    brackets, then: Configurstion error: protocol, the protocol in lower
    case in quotes, specified for host, the host in quotes, is invalid.
    Must be TCP, HTTP, or HTTPS. and a newline. *)
Theorem unsupported_protocol_record env timeout testNr t w :
  ~ In (Go.ToLower (unicodeToLower env) (Proto t)) ["tcp"; "http"; "https"] ->
  let cause :=
    "[" ++ Go.Itoa testNr ++ "] Configurstion error: protocol "
        ++ Go.quote ++ Go.ToLower (unicodeToLower env) (Proto t) ++ Go.quote
        ++ " specified for host " ++ Go.quote ++ Host t ++ Go.quote
        ++ " is invalid. Must be TCP, HTTP, or HTTPS." ++ Go.nl in
  let r := fst (runTest env timeout testNr t w) in
  let w' := snd (runTest env timeout testNr t w) in
  since w w' = [EvPrintf cause []] /\
  filter isNetworkIO (since w w') = [] /\
  Success r = false /\ FailureMessage r = cause /\ Request r = t.
Proof.
  intros Hout cause r w'. subst r w'.
  pose proof (runTest_path env timeout testNr t w) as H.
  destruct (runTest env timeout testNr t w) as [r w'].
  destruct H as (Hpath & _). cbn [fst snd].
  unfold TestPath in Hpath. rewrite (not_routed _ _ Hout) in Hpath.
  destruct Hpath.
  fold (failureCauseText testNr (Go.ToLower (unicodeToLower env) (Proto t))
                         (Host t)) in cause.
  subst cause. repeat split.
Qed.

Lemma unsupported_protocol_record_witness :
  let r := fst (runTest notFoundEnv 10 3 fileserver sampleWorld) in
  let w' := snd (runTest notFoundEnv 10 3 fileserver sampleWorld) in
  filter isNetworkIO (since sampleWorld w') = [] /\
  Success r = false /\
  FailureMessage r =
    "[3] Configurstion error: protocol " ++ Go.quote ++ "ftp" ++ Go.quote
      ++ " specified for host " ++ Go.quote ++ "ftp.example.com" ++ Go.quote
      ++ " is invalid. Must be TCP, HTTP, or HTTPS." ++ Go.nl.
Proof.
  destruct (unsupported_protocol_record notFoundEnv 10 3 fileserver
                                        sampleWorld)
    as (_ & Hio & Hs & Hm & _).
  - vm_compute. intros [H | [H | [H | []]]]; discriminate H.
  - split; [exact Hio | split; [exact Hs | exact Hm]].
Defined.

Lemma defaulted_timeout (timeout : Z) (t : Configuration) :
  Timeout (defaulted timeout t) =
  if Timeout t =? 0 then timeout else Timeout t.
Proof.
  unfold defaulted. destruct (Timeout t =? 0); reflexivity.
Qed.

(** C6, as stated, fails: a negative timeout is not replaced by the run-wide
    default, it is handed to the dial as it is. *)
Lemma negative_timeout_is_used :
  let w' := snd (testTCPConnection unreachableEnv 10 0 impatient sampleWorld) in
  specTimeout 10 impatient = 10 /\
  timeoutsUsed (since sampleWorld w') = [Go.Seconds (-3)] /\
  timeoutsUsed (since sampleWorld w')
    <> [Go.Seconds (specTimeout 10 impatient)].
Proof.
  vm_compute. repeat split. discriminate.
Qed.

(** C6, amended. Both probes resolve the effective timeout as the run-wide
    default when the timeout of the test is zero, and as the timeout of the
    test otherwise: it is the timeout of the one network call the probe
    makes (the dial; the HTTP round trip, made unless the URL is refused),
    in seconds, and the timeout echoed in the record.  A timeout of 0 uses
    the default, a timeout of 5 uses 5; for a timeout that is not negative
    this is the resolution the specification words. *)
Theorem effective_timeout_resolution env timeout testNr t w :
  let eff := if Timeout t =? 0 then timeout else Timeout t in
  let tcp := testTCPConnection env timeout testNr t w in
  let http := testHTTPConnection env timeout testNr t w in
  timeoutsUsed (since w (snd tcp)) = [Go.Seconds eff] /\
  Timeout (Request (fst tcp)) = eff /\
  timeoutsUsed (since w (snd http)) =
    match http_NewRequest env "GET" (requestURL t) with
    | None => [Go.Seconds eff]
    | Some _ => []
    end /\
  Timeout (Request (fst http)) = eff /\
  (Timeout t = 0 -> eff = timeout) /\
  (Timeout t = 5 -> eff = 5) /\
  (0 <= Timeout t -> eff = specTimeout timeout t).
Proof.
  intros eff tcp http. subst tcp http.
  pose proof (testTCPConnection_path env timeout testNr t w) as Htcp.
  pose proof (testHTTPConnection_path env timeout testNr t w) as Hhttp.
  destruct (testTCPConnection env timeout testNr t w) as [r1 w1].
  destruct (testHTTPConnection env timeout testNr t w) as [r2 w2].
  destruct Htcp as (Htcp & _). destruct Hhttp as (Hhttp & _).
  cbn [fst snd].
  pose proof (defaulted_timeout timeout t) as Hd. fold eff in Hd.
  repeat split.
  - destruct Htcp; cbn [timeoutsUsed]; rewrite Hd; reflexivity.
  - destruct Htcp; cbn [Request]; exact Hd.
  - destruct Hhttp;
      match goal with H : http_NewRequest _ _ _ = _ |- _ => rewrite H end;
      cbn [timeoutsUsed]; rewrite ?Hd; reflexivity.
  - destruct Hhttp; cbn [Request]; exact Hd.
  - intros Hz. subst eff. rewrite Hz. reflexivity.
  - intros Hz. subst eff. rewrite Hz. reflexivity.
  - intros Hz. subst eff. unfold specTimeout.
    destruct (Z.eqb_spec (Timeout t) 0) as [E | E];
      destruct (Z.ltb_spec 0 (Timeout t)); try reflexivity; lia.
Qed.

Lemma effective_timeout_resolution_witness :
  timeoutsUsed
    (since sampleWorld
           (snd (testTCPConnection notFoundEnv 10 2 mailhost sampleWorld)))
  = [10000000000] /\
  timeoutsUsed
    (since sampleWorld
           (snd (testHTTPConnection notFoundEnv 10 1 amazon sampleWorld)))
  = [5000000000] /\
  10 = specTimeout 10 mailhost.
Proof.
  destruct (effective_timeout_resolution notFoundEnv 10 2 mailhost sampleWorld)
    as (Htcp & _ & _ & _ & _ & _ & Hspec).
  destruct (effective_timeout_resolution notFoundEnv 10 1 amazon sampleWorld)
    as (_ & _ & Hhttp & _).
  split; [exact Htcp | split; [exact Hhttp | apply Hspec]].
  simpl. lia.
Defined.

(** C7. For every HTTP probe that gets as far as the round trip: when the
    round trip returns a response, whatever its status code, the record has
    success=true, that status code and no failure message; when it returns
    an error, the record has success=false, the text of the error as
    failure message and status code zero. *)
Theorem http_transport_outcome env timeout testNr t w m u d ret :
  In (EvClientDo m u d ret)
     (since w (snd (testHTTPConnection env timeout testNr t w))) ->
  let r := fst (testHTTPConnection env timeout testNr t w) in
  match ret with
  | inl resp =>
      Success r = true /\ Status r = StatusCode resp /\
      FailureMessage r = EmptyString
  | inr e =>
      Success r = false /\ FailureMessage r = e /\ Status r = 0
  end.
Proof.
  pose proof (testHTTPConnection_path env timeout testNr t w) as H.
  destruct (testHTTPConnection env timeout testNr t w) as [r w'].
  destruct H as (Hpath & _). cbn [fst snd]. intros Hin.
  destruct Hpath; cbn [In] in Hin;
    repeat (destruct Hin as [Hin | Hin]; [try discriminate Hin |]);
    try contradiction;
    inversion Hin; subst; cbn; auto.
Qed.

Lemma http_transport_outcome_witness :
  let r := fst (testHTTPConnection notFoundEnv 10 0 google sampleWorld) in
  Success r = true /\ Status r = 404 /\ FailureMessage r = EmptyString.
Proof.
  apply (http_transport_outcome notFoundEnv 10 0 google sampleWorld
           "GET" "http://google.com:80/" 10000000000 (inl (mkResponse 404))).
  vm_compute. right. right. right. left. reflexivity.
Defined.

(** An example beside C7: a round trip that fails. *)
Example http_transport_failure :
  let r := fst (testHTTPConnection unreachableEnv 10 0 google sampleWorld) in
  Success r = false /\ Status r = 0 /\
  FailureMessage r = "dial tcp: lookup nowhere.invalid: no such host" /\
  IPResolvedStatus r = "Failed to resolve IP from DNS.".
Proof. vm_compute. repeat split. Qed.

(** C8. For every HTTP probe that gets as far as the resolution of the
    host: the resolved-address field is the fixed text Failed to resolve IP
    from DNS. when the resolution returned an error and the text of the
    address otherwise, and the success flag and the failure message are
    those of the round trip alone, whatever the resolution returned. *)
Theorem resolution_is_informational env timeout testNr t w network host ip err :
  In (EvResolveIPAddr network host (ip, err))
     (since w (snd (testHTTPConnection env timeout testNr t w))) ->
  let r := fst (testHTTPConnection env timeout testNr t w) in
  IPResolvedStatus r =
    match err with
    | Some _ => "Failed to resolve IP from DNS."
    | None => IPAddr_String ip
    end /\
  exists m u d ret,
    In (EvClientDo m u d ret)
       (since w (snd (testHTTPConnection env timeout testNr t w))) /\
    Success r = match ret with inl _ => true | inr _ => false end /\
    FailureMessage r = match ret with inl _ => EmptyString | inr e => e end.
Proof.
  pose proof (testHTTPConnection_path env timeout testNr t w) as H.
  destruct (testHTTPConnection env timeout testNr t w) as [r w'].
  destruct H as (Hpath & _). cbn [fst snd]. intros Hin.
  destruct Hpath; cbn [In] in Hin;
    repeat (destruct Hin as [Hin | Hin]; [try discriminate Hin |]);
    try contradiction;
    inversion Hin; subst;
    (split; [reflexivity |]);
    do 4 eexists; (split; [cbn [In]; do 3 right; left; reflexivity |]);
    split; reflexivity.
Qed.

Lemma resolution_is_informational_witness :
  let r := fst (testHTTPConnection unreachableEnv 10 0 google sampleWorld) in
  IPResolvedStatus r = "Failed to resolve IP from DNS.".
Proof.
  apply (resolution_is_informational unreachableEnv 10 0 google sampleWorld
           "ip4" "google.com" None
           (Some "lookup nowhere.invalid: no such host")).
  vm_compute. right. right. left. reflexivity.
Defined.

Lemma route_by_lower (env : Env) (p q : string) :
  Go.ToLower (unicodeToLower env) p = Go.ToLower (unicodeToLower env) q ->
  route env p = route env q.
Proof.
  intros H. unfold route. rewrite H. reflexivity.
Qed.

(** C9. The routing of a test looks at its protocol in lower case only:
    the loop body runs the probe the routing decision names; two protocols
    with the same lower-case form are routed alike; a protocol of ASCII
    bytes is routed like its lower-case form; and TCP, Tcp, HTTP, Http,
    HTTPS and hTTpS go where tcp, http and https go. *)
Theorem routing_is_case_insensitive env timeout :
  (forall testNr t w,
      runTest env timeout testNr t w =
      match route env (Proto t) with
      | HTTPProbe => testHTTPConnection env timeout testNr t w
      | TCPProbe => testTCPConnection env timeout testNr t w
      | Unsupported =>
          (set_FailureMessage
             (failureCauseText testNr
                (Go.ToLower (unicodeToLower env) (Proto t)) (Host t))
             (set_Request t zeroResponseDetails),
           snd (emit env
                  (EvPrintf
                     (failureCauseText testNr
                        (Go.ToLower (unicodeToLower env) (Proto t)) (Host t))
                     []) w))
      end) /\
  (forall p q,
      Go.ToLower (unicodeToLower env) p = Go.ToLower (unicodeToLower env) q ->
      route env p = route env q) /\
  (forall p,
      Go.isASCII p = true ->
      route env (Go.ToLower (unicodeToLower env) p) = route env p) /\
  (route env "tcp" = TCPProbe /\ route env "TCP" = TCPProbe /\
   route env "Tcp" = TCPProbe) /\
  (route env "http" = HTTPProbe /\ route env "HTTP" = HTTPProbe /\
   route env "Http" = HTTPProbe) /\
  (route env "https" = HTTPProbe /\ route env "HTTPS" = HTTPProbe /\
   route env "hTTpS" = HTTPProbe).
Proof.
  split; [| split; [| split]].
  - intros testNr t w. rewrite runTest_route.
    destruct (route env (Proto t)); reflexivity.
  - apply route_by_lower.
  - intros p Hp. apply route_by_lower, ToLower_idempotent, Hp.
  - repeat split; reflexivity.
Qed.

Lemma routing_is_case_insensitive_witness :
  route notFoundEnv (Proto mailhost) = route notFoundEnv "tcp" /\
  route notFoundEnv (Go.ToLower (fun s => s) "HTTPS") = route notFoundEnv "HTTPS" /\
  runTest notFoundEnv 10 2 mailhost sampleWorld =
  testTCPConnection notFoundEnv 10 2 mailhost sampleWorld.
Proof.
  destruct (routing_is_case_insensitive notFoundEnv 10)
    as (Hrun & Hsame & Hlower & _).
  split; [| split].
  - apply Hsame. reflexivity.
  - apply (Hlower "HTTPS"). reflexivity.
  - rewrite Hrun. reflexivity.
Defined.

Lemma rangeLoop_heap env timeout s :
  forall n testNr results w,
    heap (snd (rangeLoop env timeout s n testNr results w)) = heap w.
Proof.
  induction n as [|n IH]; intros testNr results w; [reflexivity |].
  cbn [rangeLoop]. unfold bind at 1. unfold index. unfold bind at 1.
  pose proof (runTest_path env timeout (Z.of_nat testNr)
                (nth (base s + testNr) (heap w) zeroConfiguration) w)
    as Hstep.
  destruct (runTest env timeout (Z.of_nat testNr)
              (nth (base s + testNr) (heap w) zeroConfiguration) w)
    as [resp w1].
  destruct Hstep as (_ & Hheap & _).
  rewrite IH. exact Hheap.
Qed.

(** C10. The request echoed in the record of an HTTP or TCP probe is a copy
    of the test taken after the default was filled in and before the path
    was touched: its timeout is the run-wide default when the test has
    timeout zero, its path is the path as configured, every other field is
    that of the test.  Neither probe nor [runTests] as a whole changes an
    element of the configuration array. *)
Theorem request_is_snapshot env timeout :
  (forall testNr t w,
      let tcp := testTCPConnection env timeout testNr t w in
      let http := testHTTPConnection env timeout testNr t w in
      Request (fst tcp)
        = (if Timeout t =? 0 then set_Timeout timeout t else t) /\
      Request (fst http)
        = (if Timeout t =? 0 then set_Timeout timeout t else t) /\
      (Timeout t = 0 ->
       Timeout (Request (fst tcp)) = timeout /\
       Timeout (Request (fst http)) = timeout) /\
      Path (Request (fst tcp)) = Path t /\
      Path (Request (fst http)) = Path t /\
      heap (snd tcp) = heap w /\ heap (snd http) = heap w) /\
  (forall config w,
      heap (snd (runTests env timeout config w)) = heap w /\
      elements (Config config) (snd (runTests env timeout config w))
        = elements (Config config) w).
Proof.
  split.
  - intros testNr t w tcp http. subst tcp http.
    pose proof (testTCPConnection_path env timeout testNr t w) as Htcp.
    pose proof (testHTTPConnection_path env timeout testNr t w) as Hhttp.
    destruct (testTCPConnection env timeout testNr t w) as [r1 w1].
    destruct (testHTTPConnection env timeout testNr t w) as [r2 w2].
    destruct Htcp as (Htcp & Hh1 & _). destruct Hhttp as (Hhttp & Hh2 & _).
    apply TCPPath_request in Htcp. apply HTTPPath_request in Hhttp.
    cbn [fst snd]. rewrite Htcp, Hhttp.
    destruct (defaulted_fields timeout t) as (_ & _ & Hpath & _).
    pose proof (defaulted_timeout timeout t) as Hd.
    repeat split; try assumption.
    + rewrite Hd. rewrite (proj2 (Z.eqb_eq _ _) H). reflexivity.
    + rewrite Hd. rewrite (proj2 (Z.eqb_eq _ _) H). reflexivity.
  - intros config w.
    assert (Hheap : heap (snd (runTests env timeout config w)) = heap w).
    { unfold runTests, Printf. cbv beta iota zeta delta [bind].
      do 2 step.
      pose proof (rangeLoop_heap env timeout (Config config)
                    (len (Config config)) 0 [] w1) as Hloop.
      destruct (rangeLoop env timeout (Config config) (len (Config config))
                          0 [] w1) as [results w2].
      cbn [snd] in Hloop. cbv beta iota. congruence. }
    split; [exact Hheap |].
    unfold elements. rewrite Hheap. reflexivity.
Qed.

Lemma request_is_snapshot_witness :
  let http := testHTTPConnection notFoundEnv 10 0 google sampleWorld in
  Timeout google = 0 /\
  Timeout (Request (fst http)) = 10 /\
  Path (Request (fst http)) = EmptyString /\
  heap (snd http) = [google; amazon; mailhost; fileserver].
Proof.
  destruct (request_is_snapshot notFoundEnv 10) as (Hprobe & _).
  destruct (Hprobe 0 google sampleWorld)
    as (_ & _ & Hdefault & _ & Hpath & _ & Hheap).
  split; [reflexivity |].
  split; [apply Hdefault; reflexivity |].
  split; [exact Hpath | exact Hheap].
Defined.

(* ===================================================================== *)
(** ** Further properties of the probes                                   *)
(* ===================================================================== *)

Ltac pick_event H :=
  cbn [In] in H;
  repeat (destruct H as [H | H]; [try discriminate H |]);
  try contradiction.

(** X1. The TCP probe makes one network interaction, a dial on network tcp
    to host:port as [net.JoinHostPort] writes it.  The record has
    success=true exactly when the dial returned no error, the text of the
    error (or nothing) as failure message, status code zero, and empty body
    and resolved-address fields. *)
Theorem tcp_probe_record env timeout testNr t w :
  let r := fst (testTCPConnection env timeout testNr t w) in
  let w' := snd (testTCPConnection env timeout testNr t w) in
  exists d ret,
    filter isNetworkIO (since w w')
      = [EvDialTimeout "tcp" (Go.JoinHostPort (Host t) (Go.Itoa (Port t)))
                       d ret] /\
    Success r = match ret with None => true | Some _ => false end /\
    FailureMessage r = match ret with None => EmptyString | Some e => e end /\
    Status r = 0 /\ Body r = EmptyString /\
    IPResolvedStatus r = EmptyString.
Proof.
  intros r w'. subst r w'.
  pose proof (testTCPConnection_path env timeout testNr t w) as H.
  destruct (testTCPConnection env timeout testNr t w) as [r w'].
  destruct H as (Hpath & _). cbn [fst snd].
  destruct Hpath; do 2 eexists; cbn; repeat split.
Qed.

(** X2. The body of an HTTP response is read only for a test with
    capture_body set: without it the record's body is empty and no read
    is made; with it, a successful round trip is followed by one read,
    and the record's body is what that read returned. *)
Theorem body_is_captured_on_request env timeout testNr t w :
  let r := fst (testHTTPConnection env timeout testNr t w) in
  let log := since w (snd (testHTTPConnection env timeout testNr t w)) in
  (CaptureBody t = false ->
   Body r = EmptyString /\ forall read, ~ In (EvReadAll read) log) /\
  (forall read, In (EvReadAll read) log ->
                CaptureBody t = true /\ Body r = fst read) /\
  (CaptureBody t = true ->
   forall m u d resp,
     In (EvClientDo m u d (inl resp)) log ->
     exists read, In (EvReadAll read) log).
Proof.
  intros r log. subst r log.
  pose proof (testHTTPConnection_path env timeout testNr t w) as H.
  destruct (testHTTPConnection env timeout testNr t w) as [r w'].
  destruct H as (Hpath & _). cbn [fst snd].
  split; [| split].
  - intros Hc.
    destruct Hpath; try congruence;
      (split; [reflexivity | intros read Hin; pick_event Hin]).
  - intros read Hin.
    destruct Hpath; pick_event Hin.
    inversion Hin; subst. split; [assumption | reflexivity].
  - intros Hc m u d resp0 Hin.
    destruct Hpath; try congruence; pick_event Hin.
    eexists. cbn [In]. do 4 right. left. reflexivity.
Qed.

Lemma body_is_captured_on_request_witness :
  Body (fst (testHTTPConnection notFoundEnv 10 0 google sampleWorld))
    = EmptyString /\
  Body (fst (testHTTPConnection notFoundEnv 10 1 amazon sampleWorld))
    = "not found".
Proof.
  destruct (body_is_captured_on_request notFoundEnv 10 0 google sampleWorld)
    as (Hoff & _ & _).
  destruct (body_is_captured_on_request notFoundEnv 10 1 amazon sampleWorld)
    as (_ & Hon & _).
  split.
  - apply Hoff. reflexivity.
  - apply (Hon ("not found", None)).
    vm_compute. do 4 right. left. reflexivity.
Defined.

(** X3. When [http.NewRequest] refuses the URL of an HTTP test, the probe
    stops there: it makes no network interaction (no resolution, no round
    trip), and the record has success=false, the text of the error as
    failure message, status code zero and empty body and resolved-address
    fields. *)
Theorem refused_request_makes_no_io env timeout testNr t w m u e :
  In (EvNewRequest m u (Some e))
     (since w (snd (testHTTPConnection env timeout testNr t w))) ->
  let r := fst (testHTTPConnection env timeout testNr t w) in
  filter isNetworkIO
         (since w (snd (testHTTPConnection env timeout testNr t w))) = [] /\
  Success r = false /\ FailureMessage r = e /\ Status r = 0 /\
  Body r = EmptyString /\ IPResolvedStatus r = EmptyString.
Proof.
  pose proof (testHTTPConnection_path env timeout testNr t w) as H.
  destruct (testHTTPConnection env timeout testNr t w) as [r w'].
  destruct H as (Hpath & _). cbn [fst snd]. intros Hin.
  destruct Hpath; pick_event Hin.
  inversion Hin; subst. cbn. repeat split.
Qed.

Lemma refused_request_makes_no_io_witness :
  let run := testHTTPConnection badURLEnv 10 0 google sampleWorld in
  filter isNetworkIO (since sampleWorld (snd run)) = [] /\
  Success (fst run) = false /\
  FailureMessage (fst run) = "invalid port after host" /\
  Status (fst run) = 0 /\
  Body (fst run) = EmptyString /\ IPResolvedStatus (fst run) = EmptyString.
Proof.
  apply (refused_request_makes_no_io badURLEnv 10 0 google sampleWorld
           "GET" "http://google.com:80/" "invalid port after host").
  vm_compute. right. left. reflexivity.
Defined.

(** X4. The HTTP probe closes the body of a response exactly when the
    round trip returned one, and the close is the last thing the probe
    does; after a failed round trip or a refused URL nothing is closed. *)
Theorem body_is_closed_after_round_trip env timeout testNr t w :
  let log := since w (snd (testHTTPConnection env timeout testNr t w)) in
  (In EvBodyClose log <->
   exists m u d resp, In (EvClientDo m u d (inl resp)) log) /\
  (In EvBodyClose log ->
   exists l, log = (l ++ [EvBodyClose])%list /\ ~ In EvBodyClose l).
Proof.
  intros log. subst log.
  pose proof (testHTTPConnection_path env timeout testNr t w) as H.
  destruct (testHTTPConnection env timeout testNr t w) as [r w'].
  destruct H as (Hpath & _). cbn [snd].
  split; [split |].
  - intros Hin. destruct Hpath; pick_event Hin;
      do 4 eexists; cbn [In]; do 3 right; left; reflexivity.
  - intros (m & u & d & resp0 & Hin).
    destruct Hpath; pick_event Hin; cbn [In]; tauto.
  - intros Hin. destruct Hpath; pick_event Hin.
    + eexists [_; _; _; _; _]. split; [reflexivity |].
      intros Hl. pick_event Hl.
    + eexists [_; _; _; _; _; _]. split; [reflexivity |].
      intros Hl. pick_event Hl.
Qed.

Lemma body_is_closed_after_round_trip_witness :
  let log :=
    since sampleWorld
          (snd (testHTTPConnection notFoundEnv 10 0 google sampleWorld)) in
  In EvBodyClose log /\
  exists l, log = (l ++ [EvBodyClose])%list /\ ~ In EvBodyClose l.
Proof.
  destruct (body_is_closed_after_round_trip notFoundEnv 10 0 google
                                            sampleWorld) as (Hiff & Hlast).
  assert (Hin : In EvBodyClose
                   (since sampleWorld
                      (snd (testHTTPConnection notFoundEnv 10 0 google
                                               sampleWorld)))).
  { apply Hiff. exists "GET", "http://google.com:80/", 10000000000,
               (mkResponse 404).
    vm_compute. do 3 right. left. reflexivity. }
  split; [exact Hin | exact (Hlast Hin)].
Defined.

(** *** The log of a whole run *)

Lemma testHTTPConnection_extends env timeout testNr t w :
  exists l,
    trace (snd (testHTTPConnection env timeout testNr t w))
    = (trace w ++ l)%list.
Proof.
  run_program.
  destruct (Go.HasPrefix _ "/"); cbn [negb];
    repeat step; eexists; chain; reflexivity.
Qed.

Lemma testTCPConnection_extends env timeout testNr t w :
  exists l,
    trace (snd (testTCPConnection env timeout testNr t w))
    = (trace w ++ l)%list.
Proof.
  run_program. repeat step; eexists; chain; reflexivity.
Qed.

Lemma runTest_extends env timeout testNr t w :
  exists l,
    trace (snd (runTest env timeout testNr t w)) = (trace w ++ l)%list.
Proof.
  rewrite runTest_route. destruct (route env (Proto t)).
  - apply testHTTPConnection_extends.
  - apply testTCPConnection_extends.
  - run_program. repeat step. eexists. chain. reflexivity.
Qed.

(** One iteration: the segment it adds to the log, and its path. *)
Lemma runTest_run env timeout testNr t w :
  let (r, w') := runTest env timeout testNr t w in
  exists l,
    trace w' = (trace w ++ l)%list /\
    TestPath env timeout t testNr l r /\ heap w' = heap w.
Proof.
  pose proof (runTest_path env timeout testNr t w) as Hpath.
  pose proof (runTest_extends env timeout testNr t w) as Hext.
  destruct (runTest env timeout testNr t w) as [r w'].
  cbn [snd] in Hext. destruct Hext as (l & Hl).
  destruct Hpath as (Hpath & Hheap & _).
  rewrite (since_trace _ _ _ Hl) in Hpath.
  exists l. auto.
Qed.

Lemma rangeLoop_log env timeout s :
  forall n testNr results w,
    (base s + testNr + n <= List.length (heap w))%nat ->
    let (res, w') := rangeLoop env timeout s n testNr results w in
    exists runs,
      res = (results ++ map snd runs)%list /\
      trace w' = (trace w ++ List.concat (map fst runs))%list /\
      Forall2 (ranAs env timeout)
              (firstn n (skipn (base s + testNr) (heap w))) runs.
Proof.
  induction n as [|n IH]; intros testNr results w Hb.
  - cbn [rangeLoop ret firstn]. exists [].
    cbn [map List.concat]. rewrite !app_nil_r.
    repeat split. constructor.
  - cbn [rangeLoop]. unfold bind at 1. unfold index. unfold bind at 1.
    pose proof (runTest_run env timeout (Z.of_nat testNr)
                  (nth (base s + testNr) (heap w) zeroConfiguration) w)
      as Hstep.
    destruct (runTest env timeout (Z.of_nat testNr)
                (nth (base s + testNr) (heap w) zeroConfiguration) w)
      as [resp w1].
    destruct Hstep as (l & Hl & Hpath & Hheap).
    specialize (IH (S testNr) (results ++ [resp])%list w1).
    rewrite Hheap in IH.
    destruct (rangeLoop env timeout s n (S testNr) (results ++ [resp])%list w1)
      as [res w'].
    destruct IH as (runs & Hres & Htrace & Hall); [lia |].
    exists ((l, resp) :: runs). cbn [map List.concat fst snd].
    split; [| split].
    + rewrite Hres, <- app_assoc. reflexivity.
    + rewrite Htrace, Hl, <- app_assoc. reflexivity.
    + rewrite (skipn_head zeroConfiguration) by lia.
      cbn [firstn]. constructor.
      * exists (Z.of_nat testNr). exact Hpath.
      * replace (S (base s + testNr)) with (base s + S testNr)%nat by lia.
        exact Hall.
Qed.

(** X5. The tests run strictly one after the other: the log of [runTests]
    is its two header lines, which are no network I/O, followed by the
    segment of the first test, then that of the second, and so on in the
    order of the configuration; each record is the one its own segment
    led to, along one path of its test. *)
Theorem runTests_is_sequential env timeout config w :
  inBounds (Config config) w ->
  let (results, w') := runTests env timeout config w in
  exists h1 h2 runs,
    since w w' = (h1 :: h2 :: List.concat (map fst runs))%list /\
    isNetworkIO h1 = false /\ isNetworkIO h2 = false /\
    results = map snd runs /\
    Forall2 (ranAs env timeout) (elements (Config config) w) runs.
Proof.
  unfold inBounds, elements. intros Hb.
  unfold runTests, Printf.
  cbv beta iota zeta delta [bind].
  do 2 step.
  pose proof (rangeLoop_log env timeout (Config config)
                (len (Config config)) 0 [] w1) as Hloop.
  rewrite Nat.add_0_r in Hloop.
  destruct (rangeLoop env timeout (Config config) (len (Config config)) 0 [] w1)
    as [results w'].
  destruct Hloop as (runs & Hres & Htrace & Hall).
  - rewrite Hhp0, Hhp. lia.
  - cbn [app] in Hres. rewrite Hhp0, Hhp in Hall.
    do 2 eexists. exists runs.
    split.
    { apply since_trace. rewrite Htrace, Htr0, Htr, <- !app_assoc.
      reflexivity. }
    split; [reflexivity |]. split; [reflexivity |].
    split; [exact Hres | exact Hall].
Qed.

Lemma runTests_is_sequential_witness :
  let (results, w') := runTests unreachableEnv 10 sampleConfig sampleWorld in
  exists h1 h2 runs,
    since sampleWorld w' = (h1 :: h2 :: List.concat (map fst runs))%list /\
    isNetworkIO h1 = false /\ isNetworkIO h2 = false /\
    results = map snd runs /\
    Forall2 (ranAs unreachableEnv 10)
            (elements (Config sampleConfig) sampleWorld) runs.
Proof.
  apply (runTests_is_sequential unreachableEnv 10 sampleConfig sampleWorld).
  unfold inBounds. simpl. lia.
Defined.

(* ===================================================================== *)
(** ** The report                                                         *)
(* ===================================================================== *)

Lemma substring_skip (s t : string) (n : nat) :
  substring (String.length s) n (s ++ t) = substring 0 n t.
Proof.
  induction s as [|c s IH]; [reflexivity | exact IH].
Qed.

Lemma length_append (s t : string) :
  String.length (s ++ t) = (String.length s + String.length t)%nat.
Proof.
  induction s as [|c s IH]; simpl; [reflexivity | rewrite IH; reflexivity].
Qed.

Lemma HasSuffix_slash (s : string) : GoFiles.HasSuffix (s ++ "/") "/" = true.
Proof.
  unfold GoFiles.HasSuffix. rewrite length_append. cbn [String.length].
  replace (String.length s + 1 - 1)%nat with (String.length s) by lia.
  rewrite substring_skip.
  apply andb_true_iff. split; [apply Nat.leb_le; lia | reflexivity].
Qed.

Lemma sysSince_app (p p' : Process) (l : list SysEvent) :
  syslog p' = (syslog p ++ l)%list -> sysSince p p' = l.
Proof.
  intros H. unfold sysSince. rewrite H. clear H.
  induction (syslog p) as [|e t IH]; simpl; [reflexivity | exact IH].
Qed.

Lemma append_assoc (a b c : string) : ((a ++ b) ++ c)%string = (a ++ b ++ c)%string.
Proof.
  induction a as [|x a IH]; simpl; [reflexivity | rewrite IH; reflexivity].
Qed.

Lemma written_app (sink : Sink) (l l' : list SysEvent) :
  written sink (l ++ l') = (written sink l ++ written sink l')%string.
Proof.
  induction l as [|e l IH]; [reflexivity |].
  destruct e as [| | | [|] text]; destruct sink; cbn [written app];
    rewrite IH; try reflexivity; rewrite append_assoc; reflexivity.
Qed.

Lemma templText_parses : exists tmpl, template_Parse templText = inl tmpl.
Proof. vm_compute. eexists. reflexivity. Qed.

Lemma reportEntry_execute (tmpl : list Node) (r : ResponseDetails) :
  template_Parse templText = inl tmpl -> execute tmpl r = reportEntry r.
Proof.
  intros H. unfold reportEntry. rewrite H. reflexivity.
Qed.

(** The loop writes the entries in order and touches nothing else. *)
Lemma reportLoop_run (logFlag : bool) (tmpl : list Node) :
  forall results p,
    reportLoop logFlag tmpl results p =
    (Returned tt,
     mkProcess (world p) (outputDirectory p)
               (syslog p ++
                flat_map (fun r => entryWrites logFlag (execute tmpl r))
                         results)).
Proof.
  induction results as [|r results IH]; intros p.
  - cbn [reportLoop flat_map retP]. rewrite app_nil_r. destruct p; reflexivity.
  - cbn [reportLoop flat_map]. unfold bindP, sysEmit, retP, entryWrites.
    destruct logFlag; rewrite IH; cbn [world outputDirectory syslog];
      rewrite <- ?app_assoc; reflexivity.
Qed.

Lemma generateReport_run env sys logFlag test results p :
  let dir := normalDirectory (outputDirectory p) in
  let (res, p') := generateReport env sys logFlag test results p in
  outputDirectory p' = dir /\
  heap (world p') = heap (world p) /\
  exists ret,
    syslog p' =
      (syslog p ++
       SysCreate (dir ++ logfile) ret
       :: match ret with
          | Some _ => []
          | None =>
              SysWrite ReportFile ("Test suite: " ++ TestName test)
              :: flat_map (fun r => entryWrites logFlag (reportEntry r))
                          results
          end)%list /\
    res = match ret with Some _ => Exited 1 | None => Returned tt end.
Proof.
  intros dir. subst dir. unfold normalDirectory.
  destruct templText_parses as (tmpl & Hparse).
  unfold generateReport. rewrite Hparse.
  cbv beta iota delta
      [bindP setOutputDirectory retP getOutputDirectory Create sysEmit
       liftW os_Exit Printf emit].
  destruct (GoFiles.HasSuffix (outputDirectory p) "/") eqn:Hs;
    cbn [negb world outputDirectory syslog];
    match goal with
    | |- context [os_Create ?s ?q ?path] =>
        destruct (os_Create s q path) as [e |] eqn:Hc
    end;
    rewrite ?reportLoop_run;
    cbn [world outputDirectory syslog heap];
    (split; [reflexivity | split; [reflexivity |]]);
    first [exists (Some e) | exists (@None string)]; (split; [| reflexivity]);
    rewrite <- ?app_assoc; cbn [app];
    rewrite ?(flat_map_ext _ _ (fun r => f_equal (entryWrites logFlag)
                                            (reportEntry_execute tmpl r Hparse)));
    reflexivity.
Qed.

Lemma append_empty (s : string) : (s ++ EmptyString)%string = s.
Proof.
  induction s as [|c s IH]; simpl; [reflexivity | rewrite IH; reflexivity].
Qed.

Lemma written_entries (logFlag : bool) (results : list ResponseDetails) :
  written ReportFile
          (flat_map (fun r => entryWrites logFlag (reportEntry r)) results)
  = reportEntries results /\
  written Stdout
          (flat_map (fun r => entryWrites logFlag (reportEntry r)) results)
  = if logFlag then reportEntries results else EmptyString.
Proof.
  unfold reportEntries.
  induction results as [|r results [IHf IHs]]; cbn [flat_map map fold_right].
  - destruct logFlag; split; reflexivity.
  - rewrite !written_app, IHf, IHs.
    destruct logFlag; cbn [entryWrites written]; rewrite ?append_empty;
      split; reflexivity.
Qed.

(** The layout of a report entry. *)
Lemma reportEntry_text (r : ResponseDetails) :
  reportEntry r =
  Go.nl ++ templateRule ++ Go.nl
  ++ "[GENERIC TEST RESULTS]" ++ Go.nl
  ++ "Network tested         : " ++ NetworkName (Request r) ++ Go.nl
  ++ "Endpoint requested     : " ++ Proto (Request r) ++ "://"
       ++ Host (Request r) ++ ":" ++ Go.Itoa (Port (Request r))
       ++ Path (Request r) ++ Go.nl
  ++ "Connected successfully : " ++ GoFiles.FormatBool (Success r) ++ Go.nl
  ++ "Total request time     : " ++ Time r ++ Go.nl
  ++ "Failure Message        : " ++ FailureMessage r ++ Go.nl
  ++ Go.nl
  ++ "[HTTP ONLY RESULTS]" ++ Go.nl
  ++ "HTTP Status code       : " ++ Go.Itoa (Status r) ++ Go.nl
  ++ "IP-DNS resolution      : " ++ IPResolvedStatus r ++ Go.nl
  ++ "Response body          : " ++ Body r ++ Go.nl.
Proof. reflexivity. Qed.

Lemma append_cancel (a b c : string) :
  (a ++ b)%string = (a ++ c)%string -> b = c.
Proof.
  induction a as [|x a IH]; simpl; intros H; [exact H |].
  apply IH. inversion H. reflexivity.
Qed.

Lemma not_own_tail (c : ascii) (s : string) : s <> String c s.
Proof.
  intros H. apply (f_equal String.length) in H. simpl in H. lia.
Qed.

(** X6. [generateReport] keeps the output directory with one slash at its
    end: a directory that has none gets one, a directory that has one is
    left as it is, so a second report does not change it again.  The file
    it creates is testresults.log in that directory. *)
Theorem report_directory_is_normalised env sys logFlag test results p :
  let p' := snd (generateReport env sys logFlag test results p) in
  GoFiles.HasSuffix (outputDirectory p') "/" = true /\
  (GoFiles.HasSuffix (outputDirectory p) "/" = true ->
   outputDirectory p' = outputDirectory p) /\
  (GoFiles.HasSuffix (outputDirectory p) "/" = false ->
   outputDirectory p' = outputDirectory p ++ "/") /\
  (exists ret,
      sysSince p p' <> [] /\
      hd_error (sysSince p p')
      = Some (SysCreate (outputDirectory p' ++ "testresults.log") ret)) /\
  outputDirectory (snd (generateReport env sys logFlag test results p'))
  = outputDirectory p'.
Proof.
  intros p'. subst p'.
  pose proof (generateReport_run env sys logFlag test results p) as H.
  destruct (generateReport env sys logFlag test results p) as [res p'].
  cbn [snd]. cbv zeta in H.
  destruct H as (Hdir & _ & ret & Hlog & _).
  assert (Hslash : GoFiles.HasSuffix (outputDirectory p') "/" = true).
  { rewrite Hdir. unfold normalDirectory.
    destruct (GoFiles.HasSuffix (outputDirectory p) "/") eqn:Hs;
      [exact Hs | apply HasSuffix_slash]. }
  split; [exact Hslash |].
  split; [intros Hs; rewrite Hdir; unfold normalDirectory; rewrite Hs;
          reflexivity |].
  split; [intros Hs; rewrite Hdir; unfold normalDirectory; rewrite Hs;
          reflexivity |].
  split.
  - exists ret. rewrite (sysSince_app _ _ _ Hlog), Hdir.
    split; [discriminate | reflexivity].
  - pose proof (generateReport_run env sys logFlag test results p') as H'.
    destruct (generateReport env sys logFlag test results p') as [res2 p2].
    cbn [snd]. cbv zeta in H'. destruct H' as (Hdir2 & _).
    rewrite Hdir2. unfold normalDirectory. rewrite Hslash. reflexivity.
Qed.

Lemma report_directory_is_normalised_witness :
  let p' := snd (generateReport notFoundEnv goodSys true sampleConfig []
                                sampleProcess) in
  outputDirectory sampleProcess = "." /\
  outputDirectory p' = "./" /\
  hd_error (sysSince sampleProcess p')
  = Some (SysCreate "./testresults.log" None).
Proof.
  destruct (report_directory_is_normalised notFoundEnv goodSys true
              sampleConfig [] sampleProcess)
    as (_ & _ & Hadd & _ & _).
  split; [reflexivity |]. split; [apply Hadd; reflexivity |].
  reflexivity.
Defined.

(** X7. [generateReport] ends the process only when the report file
    cannot be created, with exit code 1 and before anything is written;
    otherwise it returns.  The built-in template always parses, so the
    exit that follows a parse error is never taken. *)
Theorem report_exits_only_on_create_failure env sys logFlag test results p :
  let (res, p') := generateReport env sys logFlag test results p in
  match res with
  | Exited code =>
      code = 1 /\
      exists path e, sysSince p p' = [SysCreate path (Some e)]
  | Returned _ =>
      exists path, hd_error (sysSince p p') = Some (SysCreate path None)
  end.
Proof.
  pose proof (generateReport_run env sys logFlag test results p) as H.
  destruct (generateReport env sys logFlag test results p) as [res p'].
  cbv zeta in H. destruct H as (_ & _ & ret & Hlog & Hres).
  rewrite (sysSince_app _ _ _ Hlog). subst res.
  destruct ret as [e |].
  - split; [reflexivity |]. do 2 eexists. reflexivity.
  - eexists. reflexivity.
Qed.

(** X8. When the report file was created, what [generateReport] writes to
    it is the line Test suite: with the name of the suite, followed by one
    entry per record, in the order of the records.  With the log flag set
    the same entries, in the same order, are written to standard output;
    without it the template writes nothing there. *)
Theorem report_has_one_entry_per_record env sys logFlag test results p path :
  In (SysCreate path None)
     (sysSince p (snd (generateReport env sys logFlag test results p))) ->
  let log := sysSince p (snd (generateReport env sys logFlag test results p)) in
  fst (generateReport env sys logFlag test results p) = Returned tt /\
  written ReportFile log
  = "Test suite: " ++ TestName test ++ reportEntries results /\
  written Stdout log
  = (if logFlag then reportEntries results else EmptyString).
Proof.
  pose proof (generateReport_run env sys logFlag test results p) as H.
  destruct (generateReport env sys logFlag test results p) as [res p'].
  cbv zeta in H. destruct H as (_ & _ & ret & Hlog & Hres).
  cbn [fst snd]. rewrite (sysSince_app _ _ _ Hlog). intros Hin.
  destruct ret as [e |].
  - cbn [In] in Hin. destruct Hin as [Hin | []]. discriminate Hin.
  - destruct (written_entries logFlag results) as (Hf & Hs).
    split; [exact Hres |]. cbn [written].
    rewrite Hf, Hs, append_assoc. split; reflexivity.
Qed.

Lemma report_has_one_entry_per_record_witness :
  let results := fst (runTests unreachableEnv 10 sampleConfig sampleWorld) in
  let log :=
    sysSince sampleProcess
             (snd (generateReport unreachableEnv goodSys false sampleConfig
                                  results sampleProcess)) in
  written ReportFile log
  = "Test suite: Network Test Valid 1" ++ reportEntries results /\
  written Stdout log = EmptyString.
Proof.
  destruct (report_has_one_entry_per_record unreachableEnv goodSys false
              sampleConfig
              (fst (runTests unreachableEnv 10 sampleConfig sampleWorld))
              sampleProcess "./testresults.log")
    as (_ & Hfile & Hout).
  - vm_compute. left. reflexivity.
  - split; [exact Hfile | exact Hout].
Defined.

(** X9. The entry of an HTTP test in the report starts with the rule, the
    heading, the network name and then the endpoint, which is put together
    from the echoed request: proto://host:port and the path as configured.
    It is the URL the probe asked for exactly when the configured path
    starts with a slash. *)
Theorem report_shows_configured_path env timeout testNr t w :
  let r := fst (testHTTPConnection env timeout testNr t w) in
  let log := since w (snd (testHTTPConnection env timeout testNr t w)) in
  let endpoint :=
    Proto t ++ "://" ++ Host t ++ ":" ++ Go.Itoa (Port t) ++ Path t in
  (exists rest,
      reportEntry r =
      Go.nl ++ templateRule ++ Go.nl ++ "[GENERIC TEST RESULTS]" ++ Go.nl
      ++ "Network tested         : " ++ NetworkName t ++ Go.nl
      ++ "Endpoint requested     : " ++ endpoint ++ Go.nl ++ rest) /\
  (forall m u ret,
      In (EvNewRequest m u ret) log ->
      (endpoint = u <-> Go.HasPrefix (Path t) "/" = true)).
Proof.
  intros r log endpoint. subst r log endpoint.
  pose proof (testHTTPConnection_path env timeout testNr t w) as H.
  destruct (testHTTPConnection env timeout testNr t w) as [r w'].
  destruct H as (Hpath & _). cbn [fst snd].
  destruct (defaulted_fields timeout t) as (Hh & Hp & Hpa & Hpr & Hn & _).
  split.
  - rewrite reportEntry_text, (HTTPPath_request _ _ _ _ _ Hpath).
    rewrite Hh, Hp, Hpa, Hpr, Hn.
    eexists. rewrite !append_assoc. reflexivity.
  - intros m u ret Hin.
    assert (Hu : u = requestURL t).
    { destruct Hpath; pick_event Hin; inversion Hin; reflexivity. }
    subst u. unfold requestURL.
    destruct (Go.HasPrefix (Path t) "/") eqn:Hs.
    + split; reflexivity.
    + split; [| discriminate]. intros Heq. exfalso.
      do 5 apply append_cancel in Heq.
      exact (not_own_tail _ _ Heq).
Qed.

Lemma report_shows_configured_path_witness :
  let endpoint := "HTTPS://amazon.com:443foo" in
  endpoint = "HTTPS://amazon.com:443/foo" <->
  Go.HasPrefix (Path amazon) "/" = true.
Proof.
  destruct (report_shows_configured_path notFoundEnv 10 1 amazon sampleWorld)
    as (_ & H).
  apply (H "GET" "HTTPS://amazon.com:443/foo" None).
  vm_compute. right. left. reflexivity.
Defined.

(* ===================================================================== *)
(** ** The configuration                                                  *)
(* ===================================================================== *)

(** Unfold the process down to its interactions. *)
Ltac run_process :=
  cbv beta iota zeta delta
      [bindP liftW retP log_Printf sysEmit os_Exit ReadFile Unmarshal
       NewRequest Do ReadAll Printf fst snd world outputDirectory syslog].

Ltac pstep :=
  step; cbv beta iota zeta delta [fst snd world outputDirectory syslog].

(** Every call of [downloadConfig] returns, along one of three paths, and
    changes neither the configuration array nor the output directory. *)
Lemma downloadConfig_path env fileLocation p :
  let (res, p') := downloadConfig env fileLocation p in
  exists wl sl got,
    res = Returned got /\
    DownloadPath fileLocation wl sl got /\
    trace (world p') = (trace (world p) ++ wl)%list /\
    syslog p' = (syslog p ++ sl)%list /\
    heap (world p') = heap (world p) /\
    outputDirectory p' = outputDirectory p.
Proof.
  destruct p as [w dir log]. unfold downloadConfig. run_process.
  repeat pstep;
    do 3 eexists; cbn [world syslog outputDirectory];
    (split; [reflexivity |]);
    (split; [econstructor |]);
    (split; [chain; reflexivity |]);
    (split; [rewrite ?app_nil_r; reflexivity |]);
    (split; [chain; reflexivity | reflexivity]).
Qed.

(** Every call of [parseConfig] returns.  It obtains the document along
    one path, decodes it unless it came with an error, and reports an
    error exactly when it has no test to show. *)
Lemma parseConfig_run env sys fileLocation p :
  let (res, p') := parseConfig env sys fileLocation p in
  exists wl sl got,
    ObtainPath env fileLocation wl sl got /\
    trace (world p') = (trace (world p) ++ wl)%list /\
    syslog p' = (syslog p ++ sl)%list /\
    outputDirectory p' = outputDirectory p /\
    match parsedConfig sys got with
    | Some d =>
        heap (world p') = decConfig d /\
        res = Returned
                (mkTestConfig (decTestName d) (decEmail d)
                              (mkSlice 0 (List.length (decConfig d))),
                 if (List.length (decConfig d) <? 1)%nat
                 then Some noTestCases else None)
    | None =>
        heap (world p') = heap (world p) /\
        res = Returned
                (mkTestConfig EmptyString EmptyString (mkSlice 0 0),
                 Some noTestCases)
    end.
Proof.
  unfold parseConfig.
  destruct (Go.HasPrefix (Go.ToLower (unicodeToLower env) fileLocation) "http")
    eqn:Hweb.
  - unfold bindP at 1. unfold bindP at 1.
    pose proof (downloadConfig_path env fileLocation p) as H.
    destruct (downloadConfig env fileLocation p) as [res p1].
    cbv beta iota in H.
    destruct H as (wl & sl & got & Hres & Hpath & Htr & Hsl & Hhp & Hdir).
    subst res.
    pose proof Hpath as Hpath'.
    destruct Hpath'; cbv beta iota;
      destruct p1 as [w1 dir1 log1]; run_process;
      cbn [world syslog outputDirectory heap trace Config len] in *;
      do 3 eexists;
      (split; [apply FromWeb; [exact Hweb | exact Hpath] |]);
      unfold parsedConfig; cbn [fst snd];
      repeat split; assumption || reflexivity.
  - destruct p as [w dir log]. run_process.
    destruct (ioutil_ReadFile sys _ fileLocation) as [configData [e |]]
      eqn:Hread; cbv beta iota zeta; do 3 eexists.
    + split; [eapply FileUnreadable; exact Hweb |].
      unfold parsedConfig.
      cbn [fst snd world syslog outputDirectory heap trace Config len].
      rewrite ?app_nil_r, <- ?app_assoc. cbn [app].
      repeat split; reflexivity.
    + split; [eapply FileRead; exact Hweb |].
      unfold parsedConfig.
      cbn [fst snd world syslog outputDirectory heap trace Config len].
      rewrite ?app_nil_r. repeat split; reflexivity.
Qed.

(** X10. [parseConfig] always returns, and the error it returns says one
    thing only: it is nil exactly when the configuration has at least one
    test, and otherwise it is the fixed text about an invalid or empty
    configuration.  The slice of tests it returns lies within its array,
    and covers all of it when there is no error. *)
Theorem parseConfig_error_means_no_tests env sys fileLocation p :
  let (res, p') := parseConfig env sys fileLocation p in
  exists config err,
    res = Returned (config, err) /\
    (err = None <-> (1 <= len (Config config))%nat) /\
    (err = None \/
     err = Some "Nettest config was invalid or didn't contain any test cases") /\
    inBounds (Config config) (world p') /\
    (err = None ->
     elements (Config config) (world p') = heap (world p') /\
     heap (world p') <> []).
Proof.
  pose proof (parseConfig_run env sys fileLocation p) as H.
  destruct (parseConfig env sys fileLocation p) as [res p'].
  destruct H as (wl & sl & got & _ & _ & _ & _ & H).
  destruct (parsedConfig sys got) as [d |]; destruct H as (Hheap & Hres).
  - do 2 eexists. split; [exact Hres |].
    unfold inBounds, elements. cbn [Config len base]. rewrite Hheap.
    destruct (Nat.ltb_spec (List.length (decConfig d)) 1) as [Hlt | Hge].
    + split; [split; [discriminate | lia] |].
      split; [right; reflexivity |].
      split; [lia | discriminate].
    + split; [split; [intros _; exact Hge | reflexivity] |].
      split; [left; reflexivity |].
      split; [lia |]. intros _. cbn [skipn]. rewrite firstn_all.
      split; [reflexivity |].
      destruct (decConfig d); [simpl in Hge; lia | discriminate].
  - do 2 eexists. split; [exact Hres |].
    unfold inBounds. cbn [Config len base].
    split; [split; [discriminate | lia] |].
    split; [right; reflexivity |].
    split; [lia | discriminate].
Qed.

(** X11. The location alone decides where the configuration comes from.
    A location that starts with http once in lower case is fetched with a
    GET request and no file is read, even if it names a local file; any
    other location is read as a file and no network interaction is
    made. *)
Theorem config_location_decides_the_source env sys fileLocation p :
  let p' := snd (parseConfig env sys fileLocation p) in
  (Go.HasPrefix (Go.ToLower (unicodeToLower env) fileLocation) "http" = true ->
   (forall path ret, ~ In (SysReadFile path ret) (sysSince p p')) /\
   exists ret,
     hd_error (since (world p) (world p'))
     = Some (EvNewRequest "GET" fileLocation ret)) /\
  (Go.HasPrefix (Go.ToLower (unicodeToLower env) fileLocation) "http" = false ->
   since (world p) (world p') = [] /\
   exists ret, hd_error (sysSince p p') = Some (SysReadFile fileLocation ret)).
Proof.
  intros p'. subst p'.
  pose proof (parseConfig_run env sys fileLocation p) as H.
  destruct (parseConfig env sys fileLocation p) as [res p'].
  destruct H as (wl & sl & got & Hpath & Htr & Hsl & _). cbn [snd].
  rewrite (since_trace _ _ _ Htr), (sysSince_app _ _ _ Hsl).
  split; intros Hweb; destruct Hpath as [wl sl got Hw Hd | |]; try congruence.
  - destruct Hd; (split; [intros path ret Hin; pick_event Hin
                         | eexists; reflexivity]).
  - split; [reflexivity | eexists; reflexivity].
  - split; [reflexivity | eexists; reflexivity].
Qed.

Lemma config_location_decides_the_source_witness :
  let p' := snd (parseConfig notFoundEnv goodSys "HTTP-targets.yaml"
                             sampleProcess) in
  sysSince sampleProcess p' = [] /\
  hd_error (since (world sampleProcess) (world p'))
  = Some (EvNewRequest "GET" "HTTP-targets.yaml" None).
Proof.
  destruct (config_location_decides_the_source notFoundEnv goodSys
              "HTTP-targets.yaml" sampleProcess) as (Hweb & _).
  destruct Hweb as (_ & ret & Hfirst); [reflexivity |].
  split; [reflexivity |].
  rewrite Hfirst. vm_compute in Hfirst. inversion Hfirst. reflexivity.
Defined.

(** X12. [parseConfig] passes on neither the error of reading the file nor
    the error of the YAML parser.  A file that cannot be read gives the
    zero TestConfig, with the fixed error, and leaves the configuration
    array alone.  A file that was read gives whatever the parser decoded,
    whether or not the parser reported an error: with one decoded test or
    more the error returned is nil. *)
Theorem parseConfig_hides_errors env sys fileLocation p got :
  In (SysReadFile fileLocation got)
     (sysSince p (snd (parseConfig env sys fileLocation p))) ->
  let res := fst (parseConfig env sys fileLocation p) in
  let p' := snd (parseConfig env sys fileLocation p) in
  match snd got with
  | Some _ =>
      res = Returned (mkTestConfig EmptyString EmptyString (mkSlice 0 0),
                      Some noTestCases) /\
      heap (world p') = heap (world p)
  | None =>
      let d := fst (yaml_Unmarshal sys (fst got)) in
      res = Returned
              (mkTestConfig (decTestName d) (decEmail d)
                            (mkSlice 0 (List.length (decConfig d))),
               if (List.length (decConfig d) <? 1)%nat
               then Some noTestCases else None) /\
      heap (world p') = decConfig d
  end.
Proof.
  pose proof (parseConfig_run env sys fileLocation p) as H.
  destruct (parseConfig env sys fileLocation p) as [res p'].
  destruct H as (wl & sl & got' & Hpath & _ & Hsl & _ & H). cbn [fst snd].
  rewrite (sysSince_app _ _ _ Hsl). intros Hin.
  destruct Hpath as [wl sl got' Hw Hd | |].
  - destruct Hd; pick_event Hin.
  - pick_event Hin. inversion Hin; subst.
    unfold parsedConfig in H. cbn [fst snd] in *. tauto.
  - pick_event Hin. inversion Hin; subst.
    unfold parsedConfig in H. cbn [fst snd] in *. tauto.
Qed.

Lemma parseConfig_hides_errors_witness :
  snd (yaml_Unmarshal brokenYamlSys "testname: Network Test Valid 1")
  = Some "yaml: line 9: did not find expected key" /\
  fst (parseConfig notFoundEnv brokenYamlSys "config.yaml" sampleProcess)
  = Returned (mkTestConfig "Network Test Valid 1" EmptyString (mkSlice 0 1),
              None) /\
  heap (world (snd (parseConfig notFoundEnv brokenYamlSys "config.yaml"
                                sampleProcess))) = [google].
Proof.
  split; [reflexivity |].
  apply (parseConfig_hides_errors notFoundEnv brokenYamlSys "config.yaml"
           sampleProcess ("testname: Network Test Valid 1", None)).
  vm_compute. left. reflexivity.
Defined.

(** X13. [downloadConfig] makes its one round trip with GET on the given
    location and a timeout of 30 seconds.  An error of the round trip is
    returned; a response is not looked at: whatever its status code, and
    whether or not reading the body fails, the bytes read are returned
    with a nil error, and the body is closed last. *)
Theorem download_returns_any_body env fileLocation p m u d ret :
  In (EvClientDo m u d ret)
     (since (world p) (world (snd (downloadConfig env fileLocation p)))) ->
  let res := fst (downloadConfig env fileLocation p) in
  let log :=
    since (world p) (world (snd (downloadConfig env fileLocation p))) in
  m = "GET" /\ u = fileLocation /\ d = 30000000000 /\
  match ret with
  | inr e => res = Returned (EmptyString, Some e)
  | inl _ =>
      exists configResult readErr l,
        log = (l ++ [EvReadAll (configResult, readErr); EvBodyClose])%list /\
        res = Returned (configResult, None)
  end.
Proof.
  pose proof (downloadConfig_path env fileLocation p) as H.
  destruct (downloadConfig env fileLocation p) as [res p'].
  destruct H as (wl & sl & got & Hres & Hpath & Htr & _). cbn [fst snd].
  rewrite (since_trace _ _ _ Htr). intros Hin. subst res.
  destruct Hpath; pick_event Hin; inversion Hin; subst;
    (split; [reflexivity |]); (split; [reflexivity |]);
    (split; [reflexivity |]).
  - reflexivity.
  - do 2 eexists. eexists [_; _]. split; reflexivity.
Qed.

Lemma download_returns_any_body_witness :
  fst (downloadConfig brokenBodyEnv "http://example.com/config.yaml"
                      sampleProcess)
  = Returned ("<html><bo", None).
Proof.
  destruct (download_returns_any_body brokenBodyEnv
              "http://example.com/config.yaml" sampleProcess
              "GET" "http://example.com/config.yaml" 30000000000
              (inl (mkResponse 200)))
    as (_ & _ & _ & configResult & readErr & l & Hlog & Hres).
  - vm_compute. right. left. reflexivity.
  - rewrite Hres. vm_compute in Hres. inversion Hres. reflexivity.
Defined.

(* ===================================================================== *)
(** ** The whole program                                                  *)
(* ===================================================================== *)

Lemma runTests_extends env timeout config w :
  inBounds (Config config) w ->
  exists l, trace (snd (runTests env timeout config w)) = (trace w ++ l)%list.
Proof.
  unfold inBounds. intros Hb.
  unfold runTests, Printf.
  cbv beta iota zeta delta [bind].
  do 2 step.
  pose proof (rangeLoop_log env timeout (Config config)
                (len (Config config)) 0 [] w1) as Hloop.
  rewrite Nat.add_0_r in Hloop.
  destruct (rangeLoop env timeout (Config config) (len (Config config)) 0 [] w1)
    as [results w'].
  destruct Hloop as (runs & _ & Htrace & _).
  - rewrite Hhp0, Hhp. lia.
  - cbv beta iota. rewrite Htrace, Htr0, Htr, <- !app_assoc.
    eexists. reflexivity.
Qed.

(** [generateReport] adds progress lines to the log of the world, and
    nothing else. *)
Lemma generateReport_extends env sys logFlag test results p :
  exists l,
    trace (world (snd (generateReport env sys logFlag test results p)))
    = (trace (world p) ++ l)%list /\
    filter isNetworkIO l = [].
Proof.
  destruct templText_parses as (tmpl & Hparse).
  unfold generateReport. rewrite Hparse.
  cbv beta iota delta
      [bindP setOutputDirectory retP getOutputDirectory Create sysEmit
       liftW os_Exit Printf emit].
  destruct (GoFiles.HasSuffix (outputDirectory p) "/");
    cbn [negb world outputDirectory syslog];
    match goal with
    | |- context [os_Create ?s ?q ?path] =>
        destruct (os_Create s q path) as [e |]
    end;
    rewrite ?reportLoop_run;
    cbn [snd world outputDirectory syslog trace];
    eexists; (split; [reflexivity | reflexivity]).
Qed.

(** What [main] does after the banner, when it is not asked for its
    version: the configuration comes along one path; without a test the
    process exits, with tests they are run and reported. *)
Lemma main_run env sys timeout logFlag configLocation p :
  let (res, p') := main env sys timeout logFlag configLocation false p in
  exists banner wl sl got wl2 sl2,
    ObtainPath env configLocation wl sl got /\
    filter isProbeIO banner = [] /\
    trace (world p') = (trace (world p) ++ banner ++ wl ++ wl2)%list /\
    syslog p' = (syslog p ++ sl ++ sl2)%list /\
    ((exists d results ret,
         parsedConfig sys got = Some d /\
         decConfig d <> [] /\
         heap (world p') = decConfig d /\
         Forall2 (echoes timeout) (decConfig d) results /\
         sl2 = SysCreate (normalDirectory (outputDirectory p) ++ logfile) ret
               :: match ret with
                  | Some _ => []
                  | None =>
                      SysWrite ReportFile ("Test suite: " ++ decTestName d)
                      :: flat_map
                           (fun r => entryWrites logFlag (reportEntry r))
                           results
                  end /\
         res = match ret with Some _ => Exited 1 | None => Returned tt end)
     \/
     (match parsedConfig sys got with
      | Some d => decConfig d = [] /\ heap (world p') = []
      | None => heap (world p') = heap (world p)
      end /\
      filter isProbeIO wl2 = [] /\ sl2 = [] /\ res = Exited 1)).
Proof.
  destruct p as [w dir log]. unfold main, intro.
  cbv beta iota zeta delta [bind]. run_process.
  do 4 pstep.
  pose proof (parseConfig_run env sys configLocation
                (mkProcess w3 dir log)) as Hparse.
  destruct (parseConfig env sys configLocation (mkProcess w3 dir log))
    as [res p2].
  destruct Hparse as (wl & sl & got & Hpath & Hptr & Hpsl & Hpdir & Hparse).
  destruct p2 as [w4 dir2 log2].
  cbn [world syslog outputDirectory] in *. subst dir2.
  assert (Hbanner : exists banner,
             trace w4 = (trace w ++ banner ++ wl)%list /\
             filter isProbeIO banner = []).
  { rewrite Htr2, Htr1, Htr0, Htr in Hptr.
    rewrite <- !app_assoc in Hptr. cbn [app] in Hptr.
    eexists [_; _; _; _]. split; [exact Hptr | reflexivity]. }
  clear Htr Htr0 Htr1 Htr2 Hptr.
  destruct Hbanner as (banner & Hptr & Hquiet).
  destruct (parsedConfig sys got) as [d |] eqn:Hgot;
    destruct Hparse as (Hheap & Hres); subst res; cbv beta iota.
  - destruct (Nat.ltb_spec (List.length (decConfig d)) 1) as [Hlt | Hge];
      cbv beta iota.
    + (* the document holds no test *)
      pstep.
      exists banner, wl, sl, got. do 2 eexists.
      split; [exact Hpath |]. split; [exact Hquiet |].
      split; [rewrite Htr, Hptr, <- !app_assoc; reflexivity |].
      split; [rewrite Hpsl, app_nil_r; reflexivity |].
      right. rewrite Hgot.
      assert (Hnil : decConfig d = []).
      { destruct (decConfig d); [reflexivity | simpl in Hlt; lia]. }
      split; [split; [exact Hnil | rewrite Hhp3, Hheap; exact Hnil] |].
      split; [reflexivity |]. split; reflexivity.
    + (* the tests are run and reported *)
      set (config := mkTestConfig (decTestName d) (decEmail d)
                                  (mkSlice 0 (List.length (decConfig d)))).
      assert (Hb : inBounds (Config config) w4).
      { unfold inBounds. cbn [config Config base len]. rewrite Hheap. lia. }
      pose proof (runTests_spec env timeout config w4 Hb) as Hrun.
      pose proof (runTests_extends env timeout config w4 Hb) as Hext.
      destruct (runTests env timeout config w4) as [results w5].
      cbn [snd] in Hext. destruct Hext as (l5 & Hl5).
      destruct Hrun as (Hall & Hheap5 & _).
      unfold elements in Hall. cbn [config Config base len skipn] in Hall.
      rewrite Hheap, firstn_all in Hall.
      pose proof (generateReport_run env sys logFlag config results
                    (mkProcess w5 dir log2)) as Hrep.
      pose proof (generateReport_extends env sys logFlag config results
                    (mkProcess w5 dir log2)) as Hrext.
      destruct (generateReport env sys logFlag config results
                               (mkProcess w5 dir log2)) as [res p6].
      cbv zeta in Hrep.
      cbn [snd world outputDirectory syslog] in Hrep, Hrext.
      destruct Hrep as (_ & Hheap6 & ret & Hlog6 & Hres).
      destruct Hrext as (l6 & Hl6 & _).
      destruct p6 as [w6 dir6 log6].
      cbn [world outputDirectory syslog] in *.
      exists banner, wl, sl, got, (l5 ++ l6)%list. eexists.
      split; [exact Hpath |]. split; [exact Hquiet |].
      split; [rewrite Hl6, Hl5, Hptr, <- !app_assoc; reflexivity |].
      split; [rewrite Hlog6, Hpsl, <- !app_assoc; reflexivity |].
      left. exists d, results, ret.
      split; [exact Hgot |].
      split; [destruct (decConfig d); [simpl in Hge; lia | discriminate] |].
      split; [rewrite Hheap6, Hheap5; exact Hheap |].
      split; [exact Hall |]. split; [reflexivity | exact Hres].
  - (* the document could not be obtained *)
    pstep.
    exists banner, wl, sl, got. do 2 eexists.
    split; [exact Hpath |]. split; [exact Hquiet |].
    split; [rewrite Htr, Hptr, <- !app_assoc; reflexivity |].
    split; [rewrite Hpsl, app_nil_r; reflexivity |].
    right. rewrite Hgot.
    split; [rewrite Hhp3, Hheap, Hhp2, Hhp1, Hhp0, Hhp; reflexivity |].
    split; [reflexivity |]. split; reflexivity.
Qed.

Lemma obtain_is_quiet env fileLocation wl sl got :
  ObtainPath env fileLocation wl sl got ->
  (forall sink, written sink sl = EmptyString) /\
  filter isReportEvent sl = [] /\
  filter isProbeIO wl = [].
Proof.
  intros H. destruct H as [wl sl got _ Hd | |]; [destruct Hd | |];
    (split; [intros sink; destruct sink; reflexivity
            | split; reflexivity]).
Qed.


(** X14. When [main] ends the process with an exit, the exit code is 1 and
    nothing has been written to the report, neither to the file nor, by
    the template, to standard output. *)
Theorem main_exits_before_writing
        env sys timeout logFlag configLocation versionFlag p code :
  fst (main env sys timeout logFlag configLocation versionFlag p)
  = Exited code ->
  let p' := snd (main env sys timeout logFlag configLocation versionFlag p) in
  code = 1 /\
  written ReportFile (sysSince p p') = EmptyString /\
  written Stdout (sysSince p p') = EmptyString.
Proof.
  destruct versionFlag.
  - unfold main, liftW.
    destruct (Printf env _ _ (world p)) as [a w']. discriminate.
  - pose proof (main_run env sys timeout logFlag configLocation p) as H.
    destruct (main env sys timeout logFlag configLocation false p)
      as [res p'].
    destruct H as (banner & wl & sl & got & wl2 & sl2 & Hpath & _ & _
                   & Hsl & Hcases).
    cbn [fst snd]. intros Hexit.
    rewrite (sysSince_app _ _ _ Hsl), !written_app.
    destruct (obtain_is_quiet _ _ _ _ _ Hpath) as (Hquiet & _).
    rewrite !Hquiet.
    destruct Hcases as [(d & results & ret & _ & _ & _ & _ & Hsl2 & Hres)
                       | (_ & _ & Hsl2 & Hres)]; subst sl2.
    + destruct ret as [e |]; [| congruence].
      split; [congruence | split; reflexivity].
    + split; [congruence | split; reflexivity].
Qed.

Lemma main_exits_before_writing_witness :
  let p' := snd (main unreachableEnv readOnlySys 10 true "config.yaml" false
                      sampleProcess) in
  1 = 1 /\
  written ReportFile (sysSince sampleProcess p') = EmptyString /\
  written Stdout (sysSince sampleProcess p') = EmptyString.
Proof.
  apply (main_exits_before_writing unreachableEnv readOnlySys 10 true
           "config.yaml" false sampleProcess 1).
  vm_compute. reflexivity.
Defined.




